(** * The RAG document store and retrieval agent

    A shallow embedding of [rag/config.py], [rag/document_store.py] and
    [rag/rag_agent.py].

    Conventions.
    - Python [str] is [string]; [len], slicing and [lower] act per character.
    - The distances of the index and the scores are binary64 numbers, the
      kernel's [float]: [1 - d] rounds as in Python.  Vectors, metadata
      values and the thresholds of the configuration, on which the code does
      no arithmetic, are rationals [Q].
    - A method that may raise returns a [result]; a method that touches the
      vector index or calls a collaborator runs in the monad [M], which
      threads a [World]: the collection of the store and the log of the
      calls made to collaborators.  State written before a raise is kept,
      as in Python.
    - The collaborators (file readers, text splitter, embedder, the nearest
      neighbour query of the index, the language model) are the fields of
      one record [Externals]. *)

From Stdlib Require Import ZArith QArith Qround Lqa Floats Ascii String List Lia.
From stdpp Require Import base gmap strings list fin_maps pretty.


(** ** Exceptions and results *)

Inductive exn : Type :=
| ValueError (msg : string)
| IndexError (msg : string)
| ExternalError (origin msg : string).

Inductive result (A : Type) : Type :=
| Ok (a : A)
| Raise (e : exn).
Arguments Ok {A} a.
Arguments Raise {A} e.

(** ** Python strings *)

Module Py.

(** [str.lower] on one character (ASCII letters; other characters are
    left alone and never equal an ASCII letter). *)
Definition lower_ascii (c : ascii) : ascii :=
  let n := nat_of_ascii c in
  if (65 <=? n)%nat && (n <=? 90)%nat then ascii_of_nat (n + 32) else c.

Fixpoint lower (s : string) : string :=
  match s with
  | EmptyString => EmptyString
  | String c s' => String (lower_ascii c) (lower s')
  end.

(** [s.rfind(c)], [None] for -1. *)
Fixpoint rfind (c : ascii) (s : string) : option nat :=
  match s with
  | EmptyString => None
  | String a s' =>
      match rfind c s' with
      | Some i => Some (S i)
      | None => if Ascii.eqb a c then Some 0%nat else None
      end
  end.

(** [s.split(sep)] for a one-character separator. *)
Fixpoint split (sep : ascii) (s : string) : list string :=
  match s with
  | EmptyString => [EmptyString]
  | String a s' =>
      if Ascii.eqb a sep then EmptyString :: split sep s'
      else match split sep s' with
           | [] => [String a EmptyString]
           | x :: xs => String a x :: xs
           end
  end.

(** [sep.join(parts)]. *)
Definition join (sep : string) (parts : list string) : string :=
  String.concat sep parts.

(** [s[:n]]. *)
Definition take (n : nat) (s : string) : string :=
  String.substring 0 n s.

(** [s[i:]]. *)
Definition drop (i : nat) (s : string) : string :=
  String.substring i (String.length s - i) s.

(** Truthiness of a [str]: the empty string is false. *)
Definition truthy (s : string) : bool :=
  match s with EmptyString => false | _ => true end.

(** [x or y] where [x] is [None] or a [str] and [y] is a [str]. *)
Definition or_else (x : option string) (y : string) : string :=
  match x with
  | Some s => if truthy s then s else y
  | None => y
  end.

(** [str(i)] for an [int]. *)
Definition str_int (i : Z) : string := pretty i.

(** [str(b)] for a [bool]. *)
Definition str_bool (b : bool) : string := if b then "True" else "False".

(** *** [pathlib.Path(p).suffix] (POSIX flavour) *)

(** The final component: the parts of [p] are what is left of
    [p.split('/')] once empty parts and ['.'] parts are dropped. *)
Definition path_parts (p : string) : list string :=
  List.filter (fun x => negb (String.eqb x "") && negb (String.eqb x "."))
              (split "/"%char p).

Definition path_name (p : string) : string := List.last (path_parts p) "".

(** [i = name.rfind('.')]; the suffix is [name[i:]] when
    [0 < i < len(name) - 1], else the empty string. *)
Definition suffix (p : string) : string :=
  let name := path_name p in
  match rfind "."%char name with
  | Some i =>
      if (0 <? i)%nat && (i <? String.length name - 1)%nat
      then drop i name else ""
  | None => ""
  end.

(** *** [format(x, '.3f')] *)

(** Nearest integer to [q], ties to even. *)
Definition round_half_even (q : Q) : Z :=
  let f := Qfloor q in
  let r := (q - inject_Z f)%Q in
  match (r ?= 1 # 2)%Q with
  | Lt => f
  | Gt => (f + 1)%Z
  | Eq => if Z.even f then f else (f + 1)%Z
  end.

(** The character of a decimal digit. *)
Definition digit (d : Z) : ascii := ascii_of_nat (48 + Z.to_nat d).

(** The integer part, a dot and the three decimals of [m] thousandths. *)
Definition thousandths (m : Z) : string :=
  pretty (m / 1000)%Z +:+ "."
    +:+ String (digit ((m / 100) mod 10))
          (String (digit ((m / 10) mod 10))
             (String (digit (m mod 10)) EmptyString)).

(** The magnitude [m * 2^e] of a finite binary64 number. *)
Definition magnitude (m : positive) (e : Z) : Q :=
  match e with
  | Z0 => inject_Z (Zpos m)
  | Zpos p => inject_Z (Zpos m * 2 ^ Zpos p)
  | Zneg p => Zpos m # (2 ^ p)
  end.

(** Sign, integer part, a dot and exactly three decimals of the binary64
    value rounded to the nearest thousandth, ties to even; a negative value
    that rounds to zero keeps its sign, and the values that are no numbers
    print as [nan], [inf] and [-inf], as in Python. *)
Definition format_3f (x : float) : string :=
  match Prim2SF x with
  | S754_nan => "nan"
  | S754_infinity s => if s then "-inf" else "inf"
  | S754_zero s => (if s then "-" else "") +:+ thousandths 0
  | S754_finite s m e =>
      (if s then "-" else "")
        +:+ thousandths (round_half_even (magnitude m e * (1000 # 1))%Q)
  end.

End Py.

(** ** Values and records *)

(** A metadata value: the index stores [str], [int], [float] and [bool]. *)
Inductive pyval : Type :=
| PStr (s : string)
| PInt (i : Z)
| PFloat (x : Q)
| PBool (b : bool).

Global Instance Q_eq_dec : EqDecision Q.
Proof. solve_decision. Defined.
Global Instance pyval_eq_dec : EqDecision pyval.
Proof. solve_decision. Defined.

(** A metadata dict, and a [where] filter: a dict of required values. *)
Abbreviation Metadata := (gmap string pyval).
Abbreviation Where := (gmap string pyval).
Abbreviation Embedding := (list Q).

(** Truthiness of a dict: empty is false. *)
Definition dict_truthy (m : Metadata) : bool := bool_decide (m ≠ ∅).

(** ** The vector index *)

(** The collection is a [chromadb] object, a library outside the sources.
    Its state is a finite map from chunk identifier to record (text, vector,
    metadata), as the specification describes the vector index; [add], [get]
    and [delete] below are modelled from that description.  The
    nearest-neighbour [query] is left to [Externals]: the properties of
    search hold for whatever it answers. *)
Module Chroma.

Record Entry : Type := mkEntry {
  e_document : string;
  e_embedding : Embedding;
  e_metadata : Metadata
}.

Abbreviation Collection := (gmap string Entry).

(** Modelled from the spec: the metadata filter of the index, which is not
    among the sources.  Exact-match and conjunctive: every pair of the filter
    is in the metadata; no filter matches everything. *)
Definition matches (flt : option Where) (e : Entry) : bool :=
  match flt with
  | None => true
  | Some w => bool_decide (w ⊆ e_metadata e)
  end.

Fixpoint rows (ids : list string) (documents : list string)
    (embeddings : list Embedding) (metadatas : list Metadata)
    : list (string * Entry) :=
  match ids, documents, embeddings, metadatas with
  | i :: ids', d :: documents', v :: embeddings', m :: metadatas' =>
      (i, mkEntry d v m) :: rows ids' documents' embeddings' metadatas'
  | _, _, _, _ => []
  end.

(** Modelled from the spec: the write of one record by the index, which is
    not among the sources.  A record whose identifier is already present is
    left as it is. *)
Definition add_row (c : Collection) (row : string * Entry) : Collection :=
  match c !! row.1 with
  | Some _ => c
  | None => <[row.1 := row.2]> c
  end.

(** Modelled from the spec: [collection.add(documents=, embeddings=,
    metadatas=, ids=)] of the index, which is not among the sources.  One
    batched write of each chunk with its identifier, vector, text and
    metadata; a batch whose four lists differ in length is refused and
    nothing is written. *)
Definition add (documents : list string) (embeddings : list Embedding)
    (metadatas : list Metadata) (ids : list string) (c : Collection)
    : result Collection :=
  if bool_decide (length documents = length ids
                  ∧ length embeddings = length ids
                  ∧ length metadatas = length ids)
  then Ok (foldl add_row c (rows ids documents embeddings metadatas))
  else Raise (ValueError "Unequal lengths for fields of the batch").

Record GetResult : Type := mkGetResult {
  g_ids : list string;
  g_documents : list string;
  g_metadatas : list Metadata
}.

(** Modelled from the spec: [collection.get(where=)] of the index, which is
    not among the sources.  The records that match, in the native
    enumeration order of the index. *)
Definition get (flt : option Where) (c : Collection) : GetResult :=
  let found :=
    map_to_list (filter (fun kv => matches flt kv.2 = true) c) in
  mkGetResult (found.*1) (e_document <$> found.*2) (e_metadata <$> found.*2).

(** Modelled from the spec: [collection.delete(ids=)] of the index, which
    is not among the sources.  One batched delete of exactly the identifiers
    given; an identifier that is not present is skipped. *)
Definition delete (ids : list string) (c : Collection) : Collection :=
  foldr (fun i m => base.delete i m) c ids.

(** The answer to [collection.query]: per query embedding, one list each. *)
Record QueryResult : Type := mkQueryResult {
  q_ids : list (list string);
  q_documents : list (list string);
  q_metadatas : list (list Metadata);
  q_distances : list (list float)
}.

End Chroma.

(** ** Collaborators *)

(** The arguments [RecursiveCharacterTextSplitter] is built with. *)
Record TextSplitter : Type := mkTextSplitter {
  chunk_size : Z;
  chunk_overlap : Z;
  separators : list string
}.

(** A configured language model (an opaque handle). *)
Definition LLM : Type := string.

Record Externals : Type := mkExternals {
  (** [open(path, 'rb')], [PyPDF2.PdfReader(file)], then [extract_text()]
      of each page, in page order. *)
  pdf_page_texts : string → result (list string);
  (** [docx.Document(path).paragraphs], the [text] of each. *)
  docx_paragraph_texts : string → result (list string);
  (** [open(path, 'r', encoding='utf-8').read()]. *)
  read_utf8 : string → result string;
  (** [RecursiveCharacterTextSplitter.split_text]. *)
  split_text : TextSplitter → string → list string;
  (** [GoogleGenerativeAIEmbeddings.embed_documents] and [embed_query]. *)
  embed_documents : list string → result (list Embedding);
  embed_query : string → result Embedding;
  (** [collection.query(query_embeddings=, n_results=, where=)]. *)
  collection_query :
    Chroma.Collection → list Embedding → Z → option Where →
    result Chroma.QueryResult;
  (** [LLMChain(llm, prompt).invoke(...)['text']] on the filled template. *)
  llm_invoke : LLM → string → result string;
  (** [str(x)] of a float. *)
  str_float : Q → string
}.

(** [str(v)] as an f-string renders a metadata value. *)
Definition py_str (E : Externals) (v : pyval) : string :=
  match v with
  | PStr s => s
  | PInt i => Py.str_int i
  | PFloat x => str_float E x
  | PBool b => Py.str_bool b
  end.

(** ** State, call log and the monad *)

(** One entry per call made to a collaborator, newest first. *)
Inductive Call : Type :=
| CallReadPdf (path : string)
| CallReadDocx (path : string)
| CallReadTxt (path : string)
| CallEmbedDocuments (texts : list string)
| CallEmbedQuery (text : string)
| CallAdd (documents : list string) (embeddings : list Embedding)
    (metadatas : list Metadata) (ids : list string)
| CallQuery (query_embeddings : list Embedding) (n_results : Z)
    (flt : option Where)
| CallGet (flt : option Where)
| CallDelete (ids : list string)
| CallLLM (model : LLM) (prompt : string).

(** What a [DocumentStore] shares with everything that holds a reference
    to it: the collection and the log. *)
Record World : Type := mkWorld {
  collection : Chroma.Collection;
  calls : list Call
}.

Definition M (S A : Type) : Type := S → result A * S.

Global Instance M_ret {S} : MRet (M S) := fun A a s => (Ok a, s).

Global Instance M_bind {S} : MBind (M S) := fun A B k m s =>
  match m s with
  | (Ok a, s') => k a s'
  | (Raise e, s') => (Raise e, s')
  end.

Definition raise {S A} (e : exn) : M S A := fun s => (Raise e, s).

(** A pure step that may raise. *)
Definition lift {S A} (r : result A) : M S A := fun s => (r, s).

(** A call to a collaborator: logged, then its answer. *)
Definition call {A} (c : Call) (r : result A) : M World A :=
  fun w => (r, mkWorld (collection w) (c :: calls w)).

Definition get_collection : M World Chroma.Collection :=
  fun w => (Ok (collection w), w).

Definition set_collection (c : Chroma.Collection) : M World unit :=
  fun w => (Ok tt, mkWorld c (calls w)).

(** Newline. *)
Definition nl : string := String "010"%char EmptyString.

(** [xs[0]]. *)
Definition index0 {A} (xs : list A) : result A :=
  match xs with
  | x :: _ => Ok x
  | [] => Raise (IndexError "list index out of range")
  end.

(** [zip(xs, ys, zs)]: stops with the shortest. *)
Fixpoint zip3 {A B C} (xs : list A) (ys : list B) (zs : list C)
    : list (A * B * C) :=
  match xs, ys, zs with
  | x :: xs', y :: ys', z :: zs' => (x, y, z) :: zip3 xs' ys' zs'
  | _, _, _ => []
  end.

(** [enumerate(xs, start)]. *)
Fixpoint enumerate {A} (start : Z) (xs : list A) : list (Z * A) :=
  match xs with
  | [] => []
  | x :: xs' => (start, x) :: enumerate (start + 1) xs'
  end.

(** ** [rag/config.py] *)

Record RAGConfig : Type := mkRAGConfig {
  CHROMA_PERSIST_DIRECTORY : string;
  COLLECTION_NAME : string;
  CHUNK_SIZE : Z;
  CHUNK_OVERLAP : Z;
  DEFAULT_SEARCH_RESULTS : Z;
  SIMILARITY_THRESHOLD : Q;
  SUPPORTED_FILE_TYPES : list string;
  EMBEDDING_MODEL : string
}.

(** The class attributes as the module defines them. *)
Definition RAGConfig_class : RAGConfig := {|
  CHROMA_PERSIST_DIRECTORY := "./chroma_db";
  COLLECTION_NAME := "lab_documents";
  CHUNK_SIZE := 1000;
  CHUNK_OVERLAP := 200;
  DEFAULT_SEARCH_RESULTS := 5;
  SIMILARITY_THRESHOLD := 7 # 10;
  SUPPORTED_FILE_TYPES := [".pdf"; ".docx"; ".doc"; ".txt"];
  EMBEDDING_MODEL := "models/embedding-001"
|}.

Definition get_chroma_settings (cls : RAGConfig) : gmap string string :=
  {[ "persist_directory" := CHROMA_PERSIST_DIRECTORY cls;
     "collection_name" := COLLECTION_NAME cls ]}.

(** ** [rag/document_store.py] *)

(** The attributes [__init__] gives a [DocumentStore]: the directory, and
    what the collection, the embedder and the splitter were built with. *)
Record DocumentStore : Type := mkDocumentStore {
  persist_directory : string;
  collection_name : string;
  collection_metadata : gmap string string;
  embeddings_model : string;
  text_splitter : TextSplitter
}.

Record SearchResult : Type := mkSearchResult {
  content : string;
  metadata : Metadata;
  score : float
}.

(** The dict built for one row of the answer: [score] is [1 - distance]. *)
Definition to_result (row : string * Metadata * float) : SearchResult :=
  let '(doc, metadata, distance) := row in
  mkSearchResult doc metadata (1 - distance)%float.

Section Store.

Variable E : Externals.
Variable self : DocumentStore.

Definition _extract_from_pdf (file_path : string) : M World string :=
  pages ← call (CallReadPdf file_path) (pdf_page_texts E file_path);
  mret (foldl (fun text page => text +:+ (page +:+ nl)) "" pages).

Definition _extract_from_docx (file_path : string) : M World string :=
  paragraphs ← call (CallReadDocx file_path) (docx_paragraph_texts E file_path);
  mret (Py.join nl paragraphs).

Definition _extract_from_txt (file_path : string) : M World string :=
  call (CallReadTxt file_path) (read_utf8 E file_path).

(** The reader is handed the path as the caller wrote it ([Path(file_path)]
    denotes the same file). *)
Definition extract_text_from_file (file_path : string) : M World string :=
  let suffix := Py.suffix file_path in
  if String.eqb (Py.lower suffix) ".pdf" then
    _extract_from_pdf file_path
  else if existsb (String.eqb (Py.lower suffix)) [".docx"; ".doc"] then
    _extract_from_docx file_path
  else if String.eqb (Py.lower suffix) ".txt" then
    _extract_from_txt file_path
  else
    raise (ValueError ("Unsupported file format: " +:+ suffix)).

(** [chunk[:100] + "..." if len(chunk) > 100 else chunk]. *)
Definition chunk_preview (chunk : string) : string :=
  if (100 <? String.length chunk)%nat then Py.take 100 chunk +:+ "..."
  else chunk.

(** [f"{doc_id}_{i}"]. *)
Definition chunk_id (doc_id : string) (i : nat) : string :=
  doc_id +:+ "_" +:+ Py.str_int (Z.of_nat i).

(** The dict built under "Prepare metadata", after the optional
    [base_metadata.update(metadata)]. *)
Definition base_metadata (file_path doc_id : string) (chunks : list string)
    (metadata : option Metadata) : Metadata :=
  let base : Metadata :=
    {[ "source" := PStr file_path;
       "doc_id" := PStr doc_id;
       "total_chunks" := PInt (Z.of_nat (length chunks)) ]} in
  match metadata with
  | Some m => if dict_truthy m then m ∪ base else base
  | None => base
  end.

(** [base_metadata.copy()] then [update] with the two per-chunk keys. *)
Definition chunk_metadata (base : Metadata) (i : nat) (chunk : string)
    : Metadata :=
  <[ "chunk_text" := PStr (chunk_preview chunk) ]>
    (<[ "chunk_index" := PInt (Z.of_nat i) ]> base).

Definition collection_add (documents : list string)
    (embeddings : list Embedding) (metadatas : list Metadata)
    (ids : list string) : M World unit :=
  c ← get_collection;
  c' ← call (CallAdd documents embeddings metadatas ids)
            (Chroma.add documents embeddings metadatas ids c);
  set_collection c'.

(** [add_document]; [uuid4] is the string [str(uuid.uuid4())] drawn by this
    call. *)
Definition add_document (uuid4 : string) (file_path : string)
    (metadata : option Metadata) : M World string :=
  let doc_id := uuid4 in
  text ← extract_text_from_file file_path;
  let chunks := split_text E (text_splitter self) text in
  embeddings ← call (CallEmbedDocuments chunks) (embed_documents E chunks);
  let base := base_metadata file_path doc_id chunks metadata in
  let chunk_ids := chunk_id doc_id <$> seq 0 (length chunks) in
  let metadatas := imap (chunk_metadata base) chunks in
  _ ← collection_add chunks embeddings metadatas chunk_ids;
  mret doc_id.

Definition search_documents (query : string) (n_results : Z)
    (filter_dict : option Where) : M World (list SearchResult) :=
  query_embedding ← call (CallEmbedQuery query) (embed_query E query);
  c ← get_collection;
  results ← call (CallQuery [query_embedding] n_results filter_dict)
                 (collection_query E c [query_embedding] n_results filter_dict);
  documents ← lift (index0 (Chroma.q_documents results));
  metadatas ← lift (index0 (Chroma.q_metadatas results));
  distances ← lift (index0 (Chroma.q_distances results));
  mret (to_result <$> zip3 documents metadatas distances).

Definition delete_document (doc_id : string) : M World unit :=
  c ← get_collection;
  results ← call (CallGet (Some {[ "doc_id" := PStr doc_id ]}))
                 (Ok (Chroma.get (Some {[ "doc_id" := PStr doc_id ]}) c));
  match Chroma.g_ids results with
  | [] => mret tt
  | ids =>
      c' ← call (CallDelete ids) (Ok (Chroma.delete ids c));
      set_collection c'
  end.

End Store.

(** ** [rag/rag_agent.py] *)

(** Modelled from the spec: the attributes [role], [basic_prompt],
    [context], [enhanced_prompt] and [llm] that [BaseAgent], which is not
    among the sources, gives a [RAGAgent]: a role, a base prompt, a
    pre-existing context and an enhanced prompt that may be unset or empty,
    and a language model that may not be configured.  [retrieved_docs] is
    the agent's own; [document_store] is the reference to the shared
    [World], kept beside the agent in [Session]. *)
Record RAGAgent : Type := mkRAGAgent {
  role : string;
  basic_prompt : string;
  context : option string;
  enhanced_prompt : option string;
  llm : option LLM;
  retrieved_docs : list SearchResult
}.

Record Session : Type := mkSession {
  agent : RAGAgent;
  world : World
}.

(** [self.document_store.<method>(...)]. *)
Definition on_store {A} (m : M World A) : M Session A :=
  fun s => let (r, w') := m (world s) in (r, mkSession (agent s) w').

Definition get_agent : M Session RAGAgent := fun s => (Ok (agent s), s).

(** [self.retrieved_docs = docs]. *)
Definition set_retrieved_docs (docs : list SearchResult) : M Session unit :=
  fun s =>
    let a := agent s in
    (Ok tt,
     mkSession (mkRAGAgent (role a) (basic_prompt a) (context a)
                           (enhanced_prompt a) (llm a) docs)
               (world s)).

(** [final_prompt_template] with its three slots filled. *)
Definition final_prompt (role enhanced_context base_prompt : string) : string :=
  "You are an expert in " +:+ role +:+ "." +:+ nl +:+ nl +:+
  "CONTEXT AND KNOWLEDGE BASE:" +:+ nl +:+
  enhanced_context +:+ nl +:+ nl +:+
  "TASK:" +:+ nl +:+
  base_prompt +:+ nl +:+ nl +:+
  "Use the provided context and knowledge base information to give a comprehensive and accurate response. " +:+
  "If the knowledge base contains relevant information, incorporate it into your response. " +:+
  "If the knowledge base doesn't contain relevant information, rely on your general knowledge but mention this limitation.".

Definition no_documents : string :=
  "No relevant documents found in the knowledge base.".

Section Agent.

Variable E : Externals.

Definition search_knowledge_base (query : string) (n_results : Z)
    (filter_dict : option Where) : M Session (list SearchResult) :=
  docs ← on_store (search_documents E query n_results filter_dict);
  _ ← set_retrieved_docs docs;
  self ← get_agent;
  mret (retrieved_docs self).

(** The three lines appended for result number [i]. *)
Definition context_lines (i : Z) (result : SearchResult) : list string :=
  [ nl +:+ "--- Document " +:+ Py.str_int i +:+ " (Score: "
       +:+ Py.format_3f (score result) +:+ ") ---";
    "Source: " +:+ match metadata result !! "source" with
                   | Some v => py_str E v
                   | None => "Unknown"
                   end;
    "Content: " +:+ content result ].

Definition build_context_from_search (query : string) (n_results : Z)
    : M Session string :=
  search_results ← search_knowledge_base query n_results None;
  match search_results with
  | [] => mret no_documents
  | _ =>
      let context_parts :=
        foldl (fun parts '(i, result) => parts ++ context_lines i result)
              ["Retrieved Knowledge Base Information:"]
              (enumerate 1 search_results) in
      mret (Py.join nl context_parts)
  end.

Definition get_output_with_rag (user_query : option string)
    (search_filter : option Where) : M Session string :=
  self ← get_agent;
  match llm self with
  | None => raise (ValueError "LLM is not set.")
  | Some model =>
      let search_query := Py.or_else user_query (basic_prompt self) in
      rag_context ← build_context_from_search search_query 5;
      self ← get_agent;
      let enhanced_context :=
        match context self with
        | Some c => if Py.truthy c then c +:+ nl +:+ nl +:+ rag_context
                    else rag_context
        | None => rag_context
        end in
      let base_prompt :=
        match enhanced_prompt self with
        | Some p => if Py.truthy p then p else basic_prompt self
        | None => basic_prompt self
        end in
      let prompt := final_prompt (role self) enhanced_context base_prompt in
      on_store (call (CallLLM model prompt) (llm_invoke E model prompt))
  end.

End Agent.

(** ** What the claims speak about *)

(** The error kinds of the specification, as the code raises them. *)
Definition UnsupportedFormat (suffix : string) : exn :=
  ValueError ("Unsupported file format: " +:+ suffix).

Definition MissingModel : exn := ValueError "LLM is not set.".

(** The rows handed to the index by the latest call, if that call was
    [collection.add]. *)
Definition written_batch (w : World) : list (string * Chroma.Entry) :=
  match calls w with
  | CallAdd documents embeddings metadatas ids :: _ =>
      Chroma.rows ids documents embeddings metadatas
  | _ => []
  end.

(** [metadata[key]] for the optional dict a caller passes. *)
Definition caller_value (metadata : option Metadata) (key : string)
    : option pyval :=
  match metadata with
  | Some m => m !! key
  | None => None
  end.

(** The identifier [doc_id] is unused: no chunk identifier derived from it
    is in the collection. *)
Definition fresh_doc_id (doc_id : string) (c : Chroma.Collection) : Prop :=
  ∀ i : nat, c !! chunk_id doc_id i = None.

(** The stored record carries [doc_id] in its metadata. *)
Definition has_doc_id (doc_id : string) (e : Chroma.Entry) : Prop :=
  Chroma.e_metadata e !! "doc_id" = Some (PStr doc_id).

(** A logged call that is not a filtered query of the index. *)
Definition unfiltered (c : Call) : Prop :=
  match c with
  | CallQuery _ _ flt => flt = None
  | _ => True
  end.

Global Instance has_doc_id_dec (doc_id : string) (e : Chroma.Entry)
  : Decision (has_doc_id doc_id e).
Proof. unfold has_doc_id. apply _. Defined.

(** ** A small environment to run the code in *)

Module Demo.

Definition splitter : TextSplitter :=
  {| chunk_size := 1000; chunk_overlap := 200;
     separators := [nl +:+ nl; nl; ". "; " "; ""] |}.

Definition store : DocumentStore :=
  {| persist_directory := "./chroma_db";
     collection_name := "lab_documents";
     collection_metadata := {[ "hnsw:space" := "cosine" ]};
     embeddings_model := "models/embedding-001";
     text_splitter := splitter |}.

Definition embed (text : string) : Embedding :=
  [inject_Z (Z.of_nat (String.length text))].

(** The distance of the j-th record that matches: [min 2 (3j/4)]. *)
Definition distance_of_rank (j : nat) : float :=
  match j with
  | O => 0
  | 1%nat => 0.75
  | 2%nat => 1.5
  | _ => 2
  end%float.

Definition query (c : Chroma.Collection) (qe : list Embedding) (n : Z)
    (flt : option Where) : result Chroma.QueryResult :=
  if (n <=? 0)%Z then Raise (ValueError "n_results must be positive")
  else
    let found :=
      take (Z.to_nat n)
           (map_to_list (filter (fun kv => Chroma.matches flt kv.2 = true) c)) in
    Ok {| Chroma.q_ids := [found.*1];
          Chroma.q_documents := [Chroma.e_document <$> found.*2];
          Chroma.q_metadatas := [Chroma.e_metadata <$> found.*2];
          Chroma.q_distances :=
            [imap (fun j _ => distance_of_rank j) found] |}.

(** Words are chunks; an "unreadable" path cannot be opened; a text with
    the word "boom" makes the embedder fail. *)
Definition externals : Externals := {|
  pdf_page_texts := fun _ => Ok ["page one"; "page two"];
  docx_paragraph_texts := fun _ => Ok ["first"; "second"];
  read_utf8 := fun path =>
    if String.eqb path "boom.txt" then Ok "alpha boom" else Ok "alpha beta";
  split_text := fun _ text => Py.split " "%char text;
  embed_documents := fun texts =>
    if existsb (String.eqb "boom") texts
    then Raise (ExternalError "embedder" "service unavailable")
    else Ok (embed <$> texts);
  embed_query := fun text => Ok (embed text);
  collection_query := query;
  llm_invoke := fun _ prompt => Ok "answer";
  str_float := fun _ => "0.0"
|}.



Definition empty_world : World := mkWorld ∅ [].

Definition session (a : RAGAgent) (w : World) : Session := mkSession a w.

Definition entry (doc : string) (md : Metadata) : Chroma.Entry :=
  Chroma.mkEntry doc (embed doc) md.

(** Two chunks of document "d1", one of "d2". *)
Definition world3 : World :=
  mkWorld (<[ "d1_0" := entry "alpha" {[ "doc_id" := PStr "d1"; "source" := PStr "a.txt" ]} ]>
          (<[ "d1_1" := entry "beta" {[ "doc_id" := PStr "d1" ]} ]>
          (<[ "d2_0" := entry "gamma" {[ "doc_id" := PStr "d2"; "source" := PInt 7 ]} ]> ∅)))
          [].


Definition agent_with (model : option LLM) : RAGAgent :=
  {| role := "physics"; basic_prompt := "Explain the lab";
     context := Some "Earlier notes"; enhanced_prompt := None;
     llm := model; retrieved_docs := [] |}.

End Demo.

(** ** [get_all_documents] *)

(** The number a [bool], [int] or [float] compares as. *)
Definition py_num (v : pyval) : option Q :=
  match v with
  | PStr _ => None
  | PInt i => Some (inject_Z i)
  | PFloat x => Some x
  | PBool b => Some (if b then 1 else 0)%Q
  end.

(** [a == b] on metadata values, which is also the equality of dict keys: a
    [str] equals only the same [str]; [bool], [int] and [float] compare as
    numbers ([True == 1 == 1.0]). *)
Definition py_eq (a b : pyval) : bool :=
  match a, b with
  | PStr s, PStr t => String.eqb s t
  | _, _ =>
      match py_num a, py_num b with
      | Some x, Some y => Qeq_bool x y
      | _, _ => false
      end
  end.

(** A dict keyed by metadata values, in insertion order. *)
Abbreviation Dict := (list (pyval * Metadata)).

(** [key in d]. *)
Definition dict_contains (d : Dict) (key : pyval) : bool :=
  existsb (fun kv => py_eq kv.1 key) d.

(** Keys of a dict are pairwise different. *)
Definition distinct_keys (d : Dict) : Prop :=
  ∀ (i j : nat) (a b : pyval * Metadata),
    d !! i = Some a → d !! j = Some b → py_eq a.1 b.1 = true → i = j.

(** A value, or what a subscript raises: [KeyError] on a dict without the
    key, [TypeError] on [None]. *)
Inductive keyed (A : Type) : Type :=
| Found (a : A)
| KeyError (key : string)
| TypeError (msg : string).
Arguments Found {A} a.
Arguments KeyError {A} key.
Arguments TypeError {A} msg.

(** The loop of [get_all_documents] over [results["metadatas"]].  For a
    record stored without metadata, the empty map here, the index hands
    back [None], and [metadata["doc_id"]] raises [TypeError]; on a dict
    without the key it raises [KeyError]; the first metadata seen for a
    [doc_id] is the one kept. *)
Fixpoint unique_docs_loop (metadatas : list Metadata) (unique_docs : Dict)
    : keyed Dict :=
  match metadatas with
  | [] => Found unique_docs
  | metadata :: rest =>
      if decide (metadata = ∅)
      then TypeError "'NoneType' object is not subscriptable"
      else
        match metadata !! "doc_id" with
        | None => KeyError "doc_id"
        | Some doc_id =>
            unique_docs_loop rest
              (if dict_contains unique_docs doc_id then unique_docs
               else unique_docs ++ [(doc_id, metadata)])
        end
  end.

(** [get_all_documents]: [collection.get()] with no filter, then
    [list(unique_docs.values())]. *)
Definition get_all_documents (w : World) : keyed (list Metadata) * World :=
  let results := Chroma.get None (collection w) in
  let w' := mkWorld (collection w) (CallGet None :: calls w) in
  match unique_docs_loop (Chroma.g_metadatas results) [] with
  | Found unique_docs => (Found unique_docs.*2, w')
  | KeyError key => (KeyError key, w')
  | TypeError msg => (TypeError msg, w')
  end.

(** Every record of the collection has a [doc_id] in its metadata. *)
Definition all_have_doc_id (c : Chroma.Collection) : Prop :=
  ∀ id e, c !! id = Some e → is_Some (Chroma.e_metadata e !! "doc_id").

(** No record of the collection carries [doc_id] in its metadata. *)
Definition unknown_doc_id (doc_id : string) (c : Chroma.Collection) : Prop :=
  ∀ id e, c !! id = Some e → ¬ has_doc_id doc_id e.

(** A logged read of the file at [file_path], by one of the readers. *)
Definition reads (file_path : string) (c : Call) : Prop :=
  c = CallReadPdf file_path ∨ c = CallReadDocx file_path
  ∨ c = CallReadTxt file_path.

(** Two states of an agent that differ at most in [retrieved_docs]. *)
Definition same_settings (a a' : RAGAgent) : Prop :=
  role a' = role a
  ∧ basic_prompt a' = basic_prompt a
  ∧ context a' = context a
  ∧ enhanced_prompt a' = enhanced_prompt a
  ∧ llm a' = llm a.

(** [enhanced_context] and [base_prompt] as [get_output_with_rag] computes
    them from the agent and the retrieved block. *)
Definition enhanced_context_of (a : RAGAgent) (rag_context : string) : string :=
  match context a with
  | Some c => if Py.truthy c then c +:+ nl +:+ nl +:+ rag_context
              else rag_context
  | None => rag_context
  end.

Definition base_prompt_of (a : RAGAgent) : string :=
  match enhanced_prompt a with
  | Some p => if Py.truthy p then p else basic_prompt a
  | None => basic_prompt a
  end.

(** ** The context as the specification words it *)

(** Following the specification of [build_context_from_search]: for each
    result, numbered from [i], a blank line, a title with the number and
    the score to three decimals, a line with the source ("Unknown" when the
    metadata has none) and a line with the content. *)
Fixpoint rendered_blocks (E : Externals) (i : Z) (results : list SearchResult)
    : string :=
  match results with
  | [] => ""
  | r :: rest =>
      nl +:+ nl +:+ "--- Document " +:+ Py.str_int i
         +:+ " (Score: " +:+ Py.format_3f (score r) +:+ ") ---"
         +:+ nl +:+ "Source: " +:+ match metadata r !! "source" with
                                   | Some v => py_str E v
                                   | None => "Unknown"
                                   end
         +:+ nl +:+ "Content: " +:+ content r
         +:+ rendered_blocks E (i + 1) rest
  end.

(** * Properties *)

(** ** The monad *)

Ltac run :=
  unfold mbind, M_bind, mret, M_ret, raise, lift, call, on_store, get_agent,
    set_retrieved_docs, get_collection, set_collection; simpl.

Lemma bind_ok {S A B} (m : M S A) (k : A → M S B) s a s' :
  m s = (Ok a, s') → (m ≫= k) s = k a s'.
Proof. intros H. unfold mbind, M_bind. by rewrite H. Qed.

Lemma bind_raise {S A B} (m : M S A) (k : A → M S B) s e s' :
  m s = (Raise e, s') → (m ≫= k) s = (Raise e, s').
Proof. intros H. unfold mbind, M_bind. by rewrite H. Qed.

(** ** Python helpers on examples *)

Example suffix_upper : Py.suffix "/tmp/Report.PDF" = ".PDF".
Proof. reflexivity. Qed.

Example suffix_hidden_file : Py.suffix "dir/.txt" = "".
Proof. reflexivity. Qed.

Example suffix_trailing_dot : Py.suffix "notes." = "".
Proof. reflexivity. Qed.

Example suffix_is_the_last : Py.suffix "a.tar.gz/" = ".gz".
Proof. reflexivity. Qed.

Example lower_mixed : Py.lower ".DocX" = ".docx".
Proof. reflexivity. Qed.

Example format_3f_negative : Py.format_3f (-0.5) = "-0.500".
Proof. vm_compute. reflexivity. Qed.

Example format_3f_negative_zero : Py.format_3f (-0x1p-20) = "-0.000".
Proof. vm_compute. reflexivity. Qed.

Example format_3f_tie_to_even : Py.format_3f 0.0625 = "0.062".
Proof. vm_compute. reflexivity. Qed.

Example format_3f_rounds_up : Py.format_3f 0x1.3c0ebedfa43fep+0 = "1.235".
Proof. vm_compute. reflexivity. Qed.

Example format_3f_not_a_number :
  Py.format_3f nan = "nan" ∧ Py.format_3f infinity = "inf"
  ∧ Py.format_3f neg_infinity = "-inf" ∧ Py.format_3f (-0) = "-0.000".
Proof. vm_compute. done. Qed.

(** The subtraction rounds: [1 - 0.43749999999999994] is the binary64
    number 0.5625, a tie that prints as 0.562. *)
Example score_rounds_then_prints :
  Py.format_3f (score (to_result ("", ∅, 0x1.bffffffffffffp-2)))%float = "0.562".
Proof. vm_compute. reflexivity. Qed.

(** ** Extraction (C6) *)

Lemma eqb_false_of_ne (a b : string) : a ≠ b → String.eqb a b = false.
Proof. intros H. by apply String.eqb_neq. Qed.

(** C6: a path whose lower-cased suffix is not one of the supported file
    types makes [extract_text_from_file], and so [add_document], raise the
    unsupported-format error that quotes the suffix, with nothing read and
    nothing written; a supported suffix selects the reader of its format. *)
Theorem extract_text_from_file_dispatch (E : Externals) (self : DocumentStore)
    (file_path : string) :
  (Py.lower (Py.suffix file_path) ∉ SUPPORTED_FILE_TYPES RAGConfig_class →
     ∀ w, extract_text_from_file E file_path w
            = (Raise (UnsupportedFormat (Py.suffix file_path)), w)
          ∧ ∀ uuid4 metadata,
              add_document E self uuid4 file_path metadata w
              = (Raise (UnsupportedFormat (Py.suffix file_path)), w))
  ∧ (Py.lower (Py.suffix file_path) = ".pdf" →
       extract_text_from_file E file_path = _extract_from_pdf E file_path)
  ∧ (Py.lower (Py.suffix file_path) = ".docx"
     ∨ Py.lower (Py.suffix file_path) = ".doc" →
       extract_text_from_file E file_path = _extract_from_docx E file_path)
  ∧ (Py.lower (Py.suffix file_path) = ".txt" →
       extract_text_from_file E file_path = _extract_from_txt E file_path).
Proof.
  assert (Hbad : Py.lower (Py.suffix file_path)
                 ∉ SUPPORTED_FILE_TYPES RAGConfig_class →
                 ∀ w, extract_text_from_file E file_path w
                      = (Raise (UnsupportedFormat (Py.suffix file_path)), w)).
  { intros H w. cbn [SUPPORTED_FILE_TYPES RAGConfig_class] in H.
    apply not_elem_of_cons in H as [H1 H].
    apply not_elem_of_cons in H as [H2 H].
    apply not_elem_of_cons in H as [H3 H].
    apply not_elem_of_cons in H as [H4 _].
    unfold extract_text_from_file. simpl.
    rewrite !eqb_false_of_ne by done. reflexivity. }
  split; [|split; [|split]].
  - intros H w. split; [by apply Hbad|].
    intros uuid4 metadata. unfold add_document.
    apply bind_raise. by apply Hbad.
  - unfold extract_text_from_file. intros ->. reflexivity.
  - unfold extract_text_from_file. intros [-> | ->]; reflexivity.
  - unfold extract_text_from_file. intros ->. reflexivity.
Qed.

(** A [.PPTX] path is refused by [add_document] on a store with three
    records; a [.TXT] path goes to the plain-text reader. *)
Lemma extract_text_from_file_dispatch_witness :
  (Py.lower (Py.suffix "slides/Deck.PPTX") ∉ SUPPORTED_FILE_TYPES RAGConfig_class)
  ∧ add_document Demo.externals Demo.store "u" "slides/Deck.PPTX" None
      Demo.world3
    = (Raise (ValueError "Unsupported file format: .PPTX"), Demo.world3)
  ∧ extract_text_from_file Demo.externals "Notes.TXT"
    = _extract_from_txt Demo.externals "Notes.TXT".
Proof.
  pose proof (extract_text_from_file_dispatch Demo.externals Demo.store
                "slides/Deck.PPTX") as (Hbad & _).
  pose proof (extract_text_from_file_dispatch Demo.externals Demo.store
                "Notes.TXT") as (_ & _ & _ & Htxt).
  assert (Hn : Py.lower (Py.suffix "slides/Deck.PPTX")
               ∉ SUPPORTED_FILE_TYPES RAGConfig_class).
  { intros H. cbn in H.
    repeat (apply elem_of_cons in H as [H|H]; [discriminate H|]).
    by apply elem_of_nil in H. }
  split; [exact Hn|]. split.
  - exact (proj2 (Hbad Hn Demo.world3) "u" None).
  - apply Htxt. reflexivity.
Defined.

(** ** The agent without a model (C8) and the search filter (C9) *)

(** C8: with no language model set, [get_output_with_rag] raises the
    missing-model error and leaves the whole session as it was: the log of
    calls to the embedder and the index, the collection and the cached
    [retrieved_docs] are untouched. *)
Theorem get_output_with_rag_missing_model (E : Externals)
    (user_query : option string) (search_filter : option Where) (s : Session) :
  llm (agent s) = None →
  get_output_with_rag E user_query search_filter s = (Raise MissingModel, s).
Proof. intros H. unfold get_output_with_rag. run. by rewrite H. Qed.

(** An agent without a model, asked with a query and a filter. *)
Lemma get_output_with_rag_missing_model_witness :
  get_output_with_rag Demo.externals (Some "What is torque?")
    (Some {[ "doc_id" := PStr "d1" ]})
    (mkSession (Demo.agent_with None) Demo.world3)
  = (Raise (ValueError "LLM is not set."),
     mkSession (Demo.agent_with None) Demo.world3).
Proof. apply get_output_with_rag_missing_model. reflexivity. Defined.

(** ** Search (C1) *)


Lemma zip3_length {A B C} (xs : list A) :
  ∀ (ys : list B) (zs : list C),
    length (zip3 xs ys zs)
    = Nat.min (length xs) (Nat.min (length ys) (length zs)).
Proof.
  induction xs as [|x xs IH]; intros [|y ys] [|z zs]; simpl; try done.
  by rewrite IH.
Qed.




(** The scores of that search, as computed. *)
Example search_documents_demo_scores :
  (search_documents Demo.externals "alpha" 5 None Demo.world3).1
  = Ok [ mkSearchResult "beta" {[ "doc_id" := PStr "d1" ]} 1;
         mkSearchResult "alpha"
           {[ "doc_id" := PStr "d1"; "source" := PStr "a.txt" ]} 0.25;
         mkSearchResult "gamma"
           {[ "doc_id" := PStr "d2"; "source" := PInt 7 ]} (-0.5) ]%float.
Proof. vm_compute. reflexivity. Qed.


(** ** Ingestion (C2, C3, C10) *)

Lemma extract_keeps_collection (E : Externals) (file_path : string)
    (w w1 : World) (r : result string) :
  extract_text_from_file E file_path w = (r, w1) →
  collection w1 = collection w.
Proof.
  unfold extract_text_from_file, _extract_from_pdf, _extract_from_docx,
    _extract_from_txt.
  repeat case_match; run; repeat case_match; intros; simplify_eq; done.
Qed.

(** C2: when the text was extracted and the one batched call to the
    embedder raises, [add_document] raises that same error before
    [collection.add] is reached: the collection is the one the call started
    with, and the log ends with the failed embedder call. *)
Theorem add_document_embedding_failure (E : Externals) (self : DocumentStore)
    (uuid4 file_path : string) (metadata : option Metadata) (w w1 : World)
    (text : string) (e : exn) :
  extract_text_from_file E file_path w = (Ok text, w1) →
  embed_documents E (split_text E (text_splitter self) text) = Raise e →
  add_document E self uuid4 file_path metadata w
  = (Raise e,
     mkWorld (collection w)
             (CallEmbedDocuments (split_text E (text_splitter self) text)
                :: calls w1)).
Proof.
  intros Hx He. unfold add_document.
  erewrite bind_ok by exact Hx.
  run. rewrite He. by rewrite (extract_keeps_collection _ _ _ _ _ Hx).
Qed.

(** The embedder fails on the second chunk of "boom.txt". *)
Lemma add_document_embedding_failure_witness :
  add_document Demo.externals Demo.store "u" "boom.txt" None Demo.world3
  = (Raise (ExternalError "embedder" "service unavailable"),
     mkWorld (collection Demo.world3)
             [CallEmbedDocuments ["alpha"; "boom"]; CallReadTxt "boom.txt"]).
Proof.
  apply (add_document_embedding_failure Demo.externals Demo.store "u"
           "boom.txt" None Demo.world3
           (mkWorld (collection Demo.world3) [CallReadTxt "boom.txt"])
           "alpha boom").
  - reflexivity.
  - reflexivity.
Defined.

(** What a successful [add_document] did. *)
Lemma add_document_ok (E : Externals) (self : DocumentStore)
    (uuid4 file_path : string) (metadata : option Metadata) (w w' : World)
    (doc_id : string) :
  add_document E self uuid4 file_path metadata w = (Ok doc_id, w') →
  ∃ text w1 embeddings,
    extract_text_from_file E file_path w = (Ok text, w1)
    ∧ embed_documents E (split_text E (text_splitter self) text) = Ok embeddings
    ∧ length embeddings = length (split_text E (text_splitter self) text)
    ∧ doc_id = uuid4
    ∧ w' = mkWorld
             (foldl Chroma.add_row (collection w)
                (Chroma.rows
                   (chunk_id uuid4
                      <$> seq 0 (length (split_text E (text_splitter self) text)))
                   (split_text E (text_splitter self) text)
                   embeddings
                   (imap (chunk_metadata
                            (base_metadata file_path uuid4
                               (split_text E (text_splitter self) text) metadata))
                         (split_text E (text_splitter self) text))))
             (CallAdd (split_text E (text_splitter self) text) embeddings
                (imap (chunk_metadata
                         (base_metadata file_path uuid4
                            (split_text E (text_splitter self) text) metadata))
                      (split_text E (text_splitter self) text))
                (chunk_id uuid4
                   <$> seq 0 (length (split_text E (text_splitter self) text)))
                :: CallEmbedDocuments (split_text E (text_splitter self) text)
                :: calls w1).
Proof.
  unfold add_document.
  destruct (extract_text_from_file E file_path w) as [[text|e] w1] eqn:Hx;
    [erewrite bind_ok by exact Hx | erewrite bind_raise by exact Hx; done].
  pose proof (extract_keeps_collection _ _ _ _ _ Hx) as Hc.
  set (chunks := split_text E (text_splitter self) text).
  unfold collection_add, Chroma.add. run.
  destruct (embed_documents E chunks) as [embeddings|e] eqn:He; [|done].
  simpl. case_bool_decide as Hlen; simpl; [|done].
  intros [= <- <-]. exists text, w1, embeddings.
  rewrite Hc. destruct Hlen as (_ & Hl & _).
  rewrite length_fmap, length_seq in Hl. done.
Qed.

Lemma rows_lookup (ids : list string) :
  ∀ (documents : list string) (embeddings : list Embedding)
    (metadatas : list Metadata) (i : nat) (row : string * Chroma.Entry),
    Chroma.rows ids documents embeddings metadatas !! i = Some row →
    ids !! i = Some row.1
    ∧ documents !! i = Some (Chroma.e_document row.2)
    ∧ embeddings !! i = Some (Chroma.e_embedding row.2)
    ∧ metadatas !! i = Some (Chroma.e_metadata row.2).
Proof.
  induction ids as [|id ids IH];
    intros [|d ds] [|v vs] [|m ms] [|i] row H; simpl in H; try discriminate.
  - by injection H as <-.
  - by apply IH in H.
Qed.

Lemma rows_length (ids : list string) :
  ∀ (documents : list string) (embeddings : list Embedding)
    (metadatas : list Metadata),
    length documents = length ids →
    length embeddings = length ids →
    length metadatas = length ids →
    length (Chroma.rows ids documents embeddings metadatas) = length ids.
Proof.
  induction ids as [|id ids IH]; intros [|d ds] [|v vs] [|m ms]; simpl;
    intros; try discriminate; [done|].
  f_equal. apply IH; lia.
Qed.

Lemma rows_ids (ids : list string) :
  ∀ (documents : list string) (embeddings : list Embedding)
    (metadatas : list Metadata),
    length documents = length ids →
    length embeddings = length ids →
    length metadatas = length ids →
    (Chroma.rows ids documents embeddings metadatas).*1 = ids.
Proof.
  induction ids as [|id ids IH]; intros [|d ds] [|v vs] [|m ms]; simpl;
    intros; try discriminate; [done|].
  f_equal. apply IH; lia.
Qed.

Global Instance chunk_id_inj (doc_id : string) : Inj (=) (=) (chunk_id doc_id).
Proof.
  intros i j H. unfold chunk_id, Py.str_int in H.
  apply (inj (String.app doc_id)) in H.
  apply (inj (String.app "_")) in H.
  apply (inj pretty) in H. lia.
Qed.

Lemma add_row_keeps (rows : list (string * Chroma.Entry)) :
  ∀ (c : Chroma.Collection) (id : string) (e : Chroma.Entry),
    c !! id = Some e → foldl Chroma.add_row c rows !! id = Some e.
Proof.
  induction rows as [|[id' e'] rows IH]; intros c id e H; simpl; [done|].
  apply IH. unfold Chroma.add_row. simpl.
  destruct (c !! id') eqn:H'; [done|].
  rewrite lookup_insert_ne; [done|]. intros ->. congruence.
Qed.

(** A batch of new identifiers is stored as it is. *)
Lemma add_rows_fresh (rows : list (string * Chroma.Entry)) :
  ∀ (c : Chroma.Collection) (i : nat) (row : string * Chroma.Entry),
    NoDup rows.*1 →
    (∀ id, id ∈ rows.*1 → c !! id = None) →
    rows !! i = Some row →
    foldl Chroma.add_row c rows !! row.1 = Some row.2.
Proof.
  induction rows as [|[id' e'] rows IH]; intros c i row Hnd Hfresh Hi;
    [done|].
  simpl in Hnd. apply NoDup_cons in Hnd as [Hnotin Hnd].
  simpl. unfold Chroma.add_row at 2. simpl.
  rewrite (Hfresh id') by (simpl; left).
  destruct i as [|i]; simpl in Hi.
  - injection Hi as <-. simpl. apply add_row_keeps. by rewrite lookup_insert_eq.
  - eapply IH; [done| |done].
    intros id Hid. rewrite lookup_insert_ne.
    + apply Hfresh. simpl. by right.
    + intros ->. done.
Qed.

Lemma chunk_metadata_index (base : Metadata) (i : nat) (chunk : string) :
  chunk_metadata base i chunk !! "chunk_index" = Some (PInt (Z.of_nat i)).
Proof.
  unfold chunk_metadata.
  rewrite lookup_insert_ne by done. by rewrite lookup_insert_eq.
Qed.

Lemma chunk_metadata_other (base : Metadata) (i : nat) (chunk key : string) :
  key ≠ "chunk_index" → key ≠ "chunk_text" →
  chunk_metadata base i chunk !! key = base !! key.
Proof.
  intros H1 H2. unfold chunk_metadata.
  rewrite lookup_insert_ne by done. by rewrite lookup_insert_ne.
Qed.

Lemma base_metadata_caller (file_path doc_id : string) (chunks : list string)
    (metadata : option Metadata) (key : string) (v : pyval) :
  caller_value metadata key = Some v →
  base_metadata file_path doc_id chunks metadata !! key = Some v.
Proof.
  destruct metadata as [m|]; simpl; [|done]. intros H.
  unfold base_metadata, dict_truthy.
  rewrite bool_decide_true.
  - by apply lookup_union_Some_l.
  - intros ->. by rewrite lookup_empty in H.
Qed.

Lemma base_metadata_total (file_path doc_id : string) (chunks : list string)
    (metadata : option Metadata) :
  base_metadata file_path doc_id chunks metadata !! "total_chunks"
  = Some (default (PInt (Z.of_nat (length chunks)))
                  (caller_value metadata "total_chunks")).
Proof.
  assert (Hbase : ({[ "source" := PStr file_path; "doc_id" := PStr doc_id;
                      "total_chunks" := PInt (Z.of_nat (length chunks)) ]}
                   : Metadata) !! "total_chunks"
                  = Some (PInt (Z.of_nat (length chunks)))).
  { by simplify_map_eq. }
  unfold base_metadata. destruct metadata as [m|]; simpl; [|exact Hbase].
  unfold dict_truthy. case_bool_decide as Hm.
  - rewrite lookup_union. rewrite Hbase. by destruct (m !! "total_chunks").
  - subst m. rewrite lookup_empty. exact Hbase.
Qed.

(** The batch a successful [add_document] wrote, row by row. *)
Lemma add_document_batch (E : Externals) (self : DocumentStore)
    (uuid4 file_path : string) (metadata : option Metadata) (w w' : World)
    (doc_id : string) :
  add_document E self uuid4 file_path metadata w = (Ok doc_id, w') →
  ∃ text w1,
    extract_text_from_file E file_path w = (Ok text, w1)
    ∧ doc_id = uuid4
    ∧ length (written_batch w')
      = length (split_text E (text_splitter self) text)
    ∧ ∀ (i : nat) (row : string * Chroma.Entry),
        written_batch w' !! i = Some row →
        row.1 = chunk_id uuid4 i
        ∧ split_text E (text_splitter self) text !! i
          = Some (Chroma.e_document row.2)
        ∧ Chroma.e_metadata row.2
          = chunk_metadata
              (base_metadata file_path uuid4
                 (split_text E (text_splitter self) text) metadata)
              i (Chroma.e_document row.2)
        ∧ (fresh_doc_id uuid4 (collection w) →
           collection w' !! row.1 = Some row.2).
Proof.
  intros H. apply add_document_ok in H
    as (text & w1 & embeddings & Hx & He & Hlen & -> & ->).
  exists text, w1. set (chunks := split_text E (text_splitter self) text) in *.
  split; [done|]. split; [done|].
  unfold written_batch. cbn [calls collection].
  assert (Hl1 : length chunks = length (chunk_id uuid4 <$> seq 0 (length chunks)))
    by by rewrite length_fmap, length_seq.
  assert (Hl2 : length embeddings
                = length (chunk_id uuid4 <$> seq 0 (length chunks)))
    by by rewrite length_fmap, length_seq.
  assert (Hl3 : length (imap (chunk_metadata
                  (base_metadata file_path uuid4 chunks metadata)) chunks)
                = length (chunk_id uuid4 <$> seq 0 (length chunks)))
    by by rewrite length_imap, length_fmap, length_seq.
  split.
  { rewrite rows_length by done. by rewrite length_fmap, length_seq. }
  intros i row Hrow.
  pose proof (rows_lookup _ _ _ _ _ _ Hrow) as (Hid & Hdoc & _ & Hmd).
  rewrite list_lookup_fmap in Hid.
  destruct (seq 0 (length chunks) !! i) as [j|] eqn:Hj; [|done].
  apply lookup_seq in Hj as [-> _]. simpl in Hid. injection Hid as Hid.
  rewrite list_lookup_imap, Hdoc in Hmd. simpl in Hmd. injection Hmd as Hmd.
  split; [done|]. split; [done|]. split; [done|].
  intros Hfresh. eapply add_rows_fresh; [| |exact Hrow].
  - rewrite rows_ids by done. apply NoDup_fmap_2; [apply _|apply NoDup_seq].
  - intros id Hin. rewrite rows_ids in Hin by done.
    apply list_elem_of_fmap in Hin as (j & -> & _). apply Hfresh.
Qed.

(** C3, as the code has it: after a successful [add_document] that split
    the text into k chunks, the batch written has k rows; row i has the
    identifier [doc_id ++ "_" ++ str(i)] (distinct for distinct i), holds
    chunk i, and its metadata has [chunk_index = i]; its [total_chunks] is
    k, unless the caller's metadata has a [total_chunks] key, whose value is
    then the one stored.  When the identifier drawn is unused, row i is the
    record found in the collection under its identifier. *)
Theorem add_document_chunk_records (E : Externals) (self : DocumentStore)
    (uuid4 file_path : string) (metadata : option Metadata) (w w' : World)
    (doc_id : string) :
  add_document E self uuid4 file_path metadata w = (Ok doc_id, w') →
  ∃ (text : string) (w1 : World) (chunks : list string),
    extract_text_from_file E file_path w = (Ok text, w1)
    ∧ chunks = split_text E (text_splitter self) text
    ∧ length (written_batch w') = length chunks
    ∧ (∀ (i : nat) (row : string * Chroma.Entry),
         written_batch w' !! i = Some row →
         row.1 = chunk_id doc_id i
         ∧ chunks !! i = Some (Chroma.e_document row.2)
         ∧ Chroma.e_metadata row.2 !! "chunk_index" = Some (PInt (Z.of_nat i))
         ∧ Chroma.e_metadata row.2 !! "total_chunks"
           = Some (default (PInt (Z.of_nat (length chunks)))
                           (caller_value metadata "total_chunks"))
         ∧ (fresh_doc_id doc_id (collection w) →
            collection w' !! chunk_id doc_id i = Some row.2))
    ∧ (∀ i j : nat, chunk_id doc_id i = chunk_id doc_id j → i = j).
Proof.
  intros H. apply add_document_batch in H as (text & w1 & Hx & -> & Hlen & Hrows).
  exists text, w1, (split_text E (text_splitter self) text).
  split; [done|]. split; [done|]. split; [done|]. split.
  - intros i row Hrow. destruct (Hrows i row Hrow) as (Hid & Hdoc & Hmd & Hst).
    split; [done|]. split; [done|]. rewrite Hmd.
    split; [apply chunk_metadata_index|]. split.
    + rewrite chunk_metadata_other by done. apply base_metadata_total.
    + rewrite <- Hid. exact Hst.
  - intros i j Hij. by apply (inj (chunk_id uuid4)).
Qed.

(** A two-chunk text added to an empty collection, no caller metadata. *)
Lemma add_document_chunk_records_witness :
  ∃ (w' : World) (chunks : list string),
    add_document Demo.externals Demo.store "u" "a.txt" None Demo.empty_world
    = (Ok "u", w')
    ∧ chunks = ["alpha"; "beta"]
    ∧ length (written_batch w') = length chunks
    ∧ ∀ (i : nat) (row : string * Chroma.Entry),
        written_batch w' !! i = Some row →
        row.1 = chunk_id "u" i
        ∧ Chroma.e_metadata row.2 !! "chunk_index" = Some (PInt (Z.of_nat i))
        ∧ Chroma.e_metadata row.2 !! "total_chunks"
          = Some (PInt (Z.of_nat (length chunks))).
Proof.
  eexists. eexists.
  assert (Hrun : add_document Demo.externals Demo.store "u" "a.txt" None
                   Demo.empty_world
                 = (Ok "u", (add_document Demo.externals Demo.store "u" "a.txt"
                               None Demo.empty_world).2)).
  { vm_compute. reflexivity. }
  split; [exact Hrun|].
  destruct (add_document_chunk_records Demo.externals Demo.store "u" "a.txt"
              None Demo.empty_world _ "u" Hrun)
    as (text & w1 & chunks & Hx & Hchunks & Hlen & Hrows & _).
  assert (Htext : text = "alpha beta").
  { vm_compute in Hx. by injection Hx as <- _. }
  subst text. vm_compute in Hchunks. subst chunks.
  split; [reflexivity|]. split; [exact Hlen|].
  intros i row Hrow. destruct (Hrows i row Hrow) as (H1 & _ & H3 & H4 & _).
  repeat split; assumption.
Defined.

(** C3, as stated, fails: a caller whose metadata has a [total_chunks] key
    gets that value stored in a chunk of a document that has two chunks. *)
Lemma add_document_total_chunks_overridden :
  ∃ (w' : World) (e : Chroma.Entry),
    add_document Demo.externals Demo.store "u" "a.txt"
      (Some {[ "total_chunks" := PInt 99 ]}) Demo.empty_world
    = (Ok "u", w')
    ∧ length (written_batch w') = 2%nat
    ∧ collection w' !! "u_0" = Some e
    ∧ Chroma.e_metadata e !! "total_chunks" = Some (PInt 99)
    ∧ PInt 99 ≠ PInt 2.
Proof.
  eexists. eexists.
  split; [vm_compute; reflexivity|].
  split; [vm_compute; reflexivity|].
  split; [vm_compute; reflexivity|].
  split; [vm_compute; reflexivity|]. discriminate.
Qed.

(** C10, as the code has it: after a successful [add_document], every key
    of the caller's metadata other than [chunk_index] and [chunk_text] maps
    to the caller's value in the metadata of every row written, the store's
    own [source], [doc_id] and [total_chunks] included; so a caller's
    [doc_id] replaces the generated identifier in every chunk's metadata. *)
Theorem add_document_caller_metadata (E : Externals) (self : DocumentStore)
    (uuid4 file_path : string) (metadata : option Metadata) (w w' : World)
    (doc_id : string) :
  add_document E self uuid4 file_path metadata w = (Ok doc_id, w') →
  (∀ (key : string) (v : pyval),
     caller_value metadata key = Some v →
     key ≠ "chunk_index" → key ≠ "chunk_text" →
     ∀ (i : nat) (row : string * Chroma.Entry),
       written_batch w' !! i = Some row →
       Chroma.e_metadata row.2 !! key = Some v
       ∧ (fresh_doc_id doc_id (collection w) →
          collection w' !! chunk_id doc_id i = Some row.2))
  ∧ (∀ (v : pyval),
       caller_value metadata "doc_id" = Some v →
       ∀ (i : nat) (row : string * Chroma.Entry),
         written_batch w' !! i = Some row →
         Chroma.e_metadata row.2 !! "doc_id" = Some v).
Proof.
  intros H. apply add_document_batch in H as (text & w1 & Hx & -> & Hlen & Hrows).
  assert (Hkey : ∀ (key : string) (v : pyval),
            caller_value metadata key = Some v →
            key ≠ "chunk_index" → key ≠ "chunk_text" →
            ∀ (i : nat) (row : string * Chroma.Entry),
              written_batch w' !! i = Some row →
              Chroma.e_metadata row.2 !! key = Some v).
  { intros key v Hv Hk1 Hk2 i row Hrow.
    destruct (Hrows i row Hrow) as (_ & _ & -> & _).
    rewrite chunk_metadata_other by done. by apply base_metadata_caller. }
  split.
  - intros key v Hv Hk1 Hk2 i row Hrow. split; [by eapply Hkey|].
    destruct (Hrows i row Hrow) as (Hid & _ & _ & Hst).
    rewrite <- Hid. exact Hst.
  - intros v Hv i row Hrow. by eapply Hkey.
Qed.

(** A caller whose metadata names its own [doc_id]. *)
Lemma add_document_caller_metadata_witness :
  ∃ (w' : World),
    add_document Demo.externals Demo.store "u" "a.txt"
      (Some {[ "doc_id" := PStr "mine"; "course" := PStr "physics" ]})
      Demo.empty_world
    = (Ok "u", w')
    ∧ ∀ (i : nat) (row : string * Chroma.Entry),
        written_batch w' !! i = Some row →
        Chroma.e_metadata row.2 !! "doc_id" = Some (PStr "mine").
Proof.
  eexists.
  assert (Hrun : add_document Demo.externals Demo.store "u" "a.txt"
                   (Some {[ "doc_id" := PStr "mine"; "course" := PStr "physics" ]})
                   Demo.empty_world
                 = (Ok "u", (add_document Demo.externals Demo.store "u" "a.txt"
                               (Some {[ "doc_id" := PStr "mine";
                                        "course" := PStr "physics" ]})
                               Demo.empty_world).2)).
  { vm_compute. reflexivity. }
  split; [exact Hrun|].
  destruct (add_document_caller_metadata Demo.externals Demo.store "u" "a.txt"
              _ Demo.empty_world _ "u" Hrun) as (_ & Hdoc).
  apply Hdoc. vm_compute. reflexivity.
Defined.

(** C10, as stated, fails for the key [chunk_index]: the caller's value 7
    is not the one stored in chunk 0. *)
Lemma add_document_chunk_index_not_overridden :
  ∃ (w' : World) (e : Chroma.Entry),
    caller_value (Some {[ "chunk_index" := PInt 7 ]}) "chunk_index"
    = Some (PInt 7)
    ∧ add_document Demo.externals Demo.store "u" "a.txt"
        (Some {[ "chunk_index" := PInt 7 ]}) Demo.empty_world
      = (Ok "u", w')
    ∧ collection w' !! "u_0" = Some e
    ∧ Chroma.e_metadata e !! "chunk_index" = Some (PInt 0)
    ∧ Chroma.e_metadata e !! "chunk_index" ≠ Some (PInt 7).
Proof.
  eexists. eexists.
  split; [vm_compute; reflexivity|].
  split; [vm_compute; reflexivity|].
  split; [vm_compute; reflexivity|].
  split; [vm_compute; reflexivity|]. vm_compute. discriminate.
Qed.

(** ** Deletion (C4) *)

Lemma delete_lookup (ids : list string) (c : Chroma.Collection) (id : string) :
  Chroma.delete ids c !! id = if decide (id ∈ ids) then None else c !! id.
Proof.
  induction ids as [|i ids IH].
  - rewrite decide_False; [done|apply not_elem_of_nil].
  - unfold Chroma.delete. cbn [foldr]. fold (Chroma.delete ids c).
    destruct (decide (i = id)) as [->|Hne].
    + rewrite lookup_delete_eq, decide_True; [done|left].
    + rewrite lookup_delete_ne by done. rewrite IH.
      destruct (decide (id ∈ ids)) as [Hin|Hnin].
      * rewrite decide_True; [done|by right].
      * rewrite decide_False; [done|].
        intros [->|?]%elem_of_cons; done.
Qed.

Lemma matches_doc_id (doc_id : string) (e : Chroma.Entry) :
  Chroma.matches (Some {[ "doc_id" := PStr doc_id ]}) e = true
  ↔ has_doc_id doc_id e.
Proof.
  unfold Chroma.matches, has_doc_id.
  rewrite bool_decide_eq_true. apply map_singleton_subseteq_l.
Qed.

Lemma get_ids_doc_id (doc_id : string) (c : Chroma.Collection) (id : string) :
  id ∈ Chroma.g_ids (Chroma.get (Some {[ "doc_id" := PStr doc_id ]}) c)
  ↔ ∃ e, c !! id = Some e ∧ has_doc_id doc_id e.
Proof.
  unfold Chroma.get. simpl. rewrite list_elem_of_fmap. split.
  - intros ([id' e] & -> & Hin). apply elem_of_map_to_list in Hin.
    apply map_lookup_filter_Some in Hin as [Hl Hm]. simpl in Hm.
    exists e. split; [done|]. by apply matches_doc_id.
  - intros (e & Hl & Hd). exists (id, e). split; [done|].
    apply elem_of_map_to_list. apply map_lookup_filter_Some.
    split; [done|]. simpl. by apply matches_doc_id.
Qed.

Lemma delete_document_run (doc_id : string) (w : World) :
  ∃ log,
    delete_document doc_id w
    = (Ok tt,
       mkWorld (Chroma.delete
                  (Chroma.g_ids
                     (Chroma.get (Some {[ "doc_id" := PStr doc_id ]})
                        (collection w)))
                  (collection w))
               (log ++ CallGet (Some {[ "doc_id" := PStr doc_id ]}) :: calls w))
    ∧ (Chroma.g_ids (Chroma.get (Some {[ "doc_id" := PStr doc_id ]})
                       (collection w)) = [] → log = []).
Proof.
  unfold delete_document, mbind, M_bind, mret, M_ret, call, get_collection,
    set_collection.
  cbn -[Chroma.get Chroma.delete].
  destruct (Chroma.g_ids (Chroma.get _ _)) as [|id ids] eqn:Hids;
    cbn -[Chroma.get Chroma.delete].
  - exists []. split; [by destruct w|done].
  - exists [CallDelete (id :: ids)]. split; [done|discriminate].
Qed.

(** C4: [delete_document] never raises; it leaves in the collection exactly
    the records whose metadata [doc_id] is not the given one: none of those
    that carry it stays, every other record stays as it was; when no record
    carries it the collection is unchanged and [collection.delete] is not
    called. *)
Theorem delete_document_exact (doc_id : string) (w : World) :
  ∃ w',
    delete_document doc_id w = (Ok tt, w')
    ∧ collection w'
      = filter (fun kv => ¬ has_doc_id doc_id kv.2) (collection w)
    ∧ (∀ id e, collection w' !! id = Some e → ¬ has_doc_id doc_id e)
    ∧ (∀ id e, collection w !! id = Some e → ¬ has_doc_id doc_id e →
               collection w' !! id = Some e)
    ∧ ((∀ id e, collection w !! id = Some e → ¬ has_doc_id doc_id e) →
       collection w' = collection w
       ∧ calls w' = CallGet (Some {[ "doc_id" := PStr doc_id ]}) :: calls w).
Proof.
  destruct (delete_document_run doc_id w) as (log & Hrun & Hlog).
  eexists. split; [exact Hrun|]. cbn [collection calls].
  assert (Heq : Chroma.delete
                  (Chroma.g_ids
                     (Chroma.get (Some {[ "doc_id" := PStr doc_id ]})
                        (collection w)))
                  (collection w)
                = filter (fun kv => ¬ has_doc_id doc_id kv.2) (collection w)).
  { apply map_eq. intros id. rewrite delete_lookup.
    destruct (collection w !! id) as [e|] eqn:Hl.
    - case_decide as Hin.
      + apply get_ids_doc_id in Hin as (e' & He' & Hd).
        assert (e' = e) as -> by congruence.
        symmetry. apply map_lookup_filter_None. right. intros e' He''.
        assert (e' = e) as -> by congruence. simpl. tauto.
      + symmetry. apply map_lookup_filter_Some. split; [done|]. simpl.
        intros Hd. apply Hin. apply get_ids_doc_id. eauto.
    - case_decide; symmetry; apply map_lookup_filter_None; left; done. }
  rewrite Heq. split; [done|]. split; [|split].
  - intros id e H. by apply map_lookup_filter_Some in H as [_ H].
  - intros id e Hl Hd. by apply map_lookup_filter_Some.
  - intros Hnone. split.
    + apply map_filter_id. intros id e Hl. simpl. by eapply Hnone.
    + rewrite Hlog; [done|].
      destruct (Chroma.g_ids _) as [|id ids] eqn:Hids; [done|].
      assert (Hin : id ∈ Chroma.g_ids
                 (Chroma.get (Some {[ "doc_id" := PStr doc_id ]}) (collection w)))
        by (rewrite Hids; left).
      apply get_ids_doc_id in Hin as (e & Hl & Hd). by destruct (Hnone id e).
Qed.

(** Deleting a document that has no chunk in the collection. *)
Lemma delete_document_exact_witness :
  ∃ w',
    delete_document "d9" Demo.world3 = (Ok tt, w')
    ∧ collection w' = collection Demo.world3
    ∧ calls w' = [CallGet (Some {[ "doc_id" := PStr "d9" ]})].
Proof.
  destruct (delete_document_exact "d9" Demo.world3)
    as (w' & Hrun & _ & _ & _ & Hnoop).
  exists w'. split; [exact Hrun|].
  apply Hnoop. intros id e Hl Hd.
  assert (Hin : id ∈ Chroma.g_ids
             (Chroma.get (Some {[ "doc_id" := PStr "d9" ]})
                (collection Demo.world3))).
  { apply get_ids_doc_id. eauto. }
  vm_compute in Hin. by apply elem_of_nil in Hin.
Defined.

(** Deleting "d1" leaves the one chunk of "d2". *)
Example delete_document_d1 :
  (map_to_list (collection (delete_document "d1" Demo.world3).2)).*1
  = ["d2_0"].
Proof. vm_compute. reflexivity. Qed.

(** ** The agent: retrieval log (C9) *)

Lemma search_documents_calls (E : Externals) (query : string) (n_results : Z)
    (filter_dict : option Where) (w : World) :
  ∃ new,
    calls (search_documents E query n_results filter_dict w).2 = new ++ calls w
    ∧ ∀ c, c ∈ new →
        c = CallEmbedQuery query ∨ ∃ qe, c = CallQuery [qe] n_results filter_dict.
Proof.
  unfold search_documents. run.
  destruct (embed_query E query) as [qe|e]; simpl.
  - exists [CallQuery [qe] n_results filter_dict; CallEmbedQuery query].
    split.
    + destruct (collection_query E _ _ _ _) as [r|e]; simpl; [|done].
      destruct (index0 (Chroma.q_documents r)); simpl; [|done].
      destruct (index0 (Chroma.q_metadatas r)); simpl; [|done].
      destruct (index0 (Chroma.q_distances r)); simpl; done.
    + intros c [->|[->|[]%elem_of_nil]%elem_of_cons]%elem_of_cons; eauto.
  - exists [CallEmbedQuery query]. split; [done|].
    intros c [->|[]%elem_of_nil]%elem_of_cons. by left.
Qed.

Lemma search_knowledge_base_world (E : Externals) (query : string)
    (n_results : Z) (filter_dict : option Where) (s : Session) :
  world (search_knowledge_base E query n_results filter_dict s).2
  = (search_documents E query n_results filter_dict (world s)).2.
Proof.
  unfold search_knowledge_base. run.
  by destruct (search_documents E query n_results filter_dict (world s))
    as [[docs|e] w'].
Qed.

Lemma build_context_from_search_world (E : Externals) (query : string)
    (n_results : Z) (s : Session) :
  world (build_context_from_search E query n_results s).2
  = (search_documents E query n_results None (world s)).2.
Proof.
  rewrite <- search_knowledge_base_world.
  unfold build_context_from_search, mbind, M_bind.
  destruct (search_knowledge_base E query n_results None s)
    as [[[|r results]|e] s']; done.
Qed.

(** C9: [get_output_with_rag] does not depend on [search_filter]: two calls
    that differ only in it return the same answer and leave the same session
    (same log, so the same query sent to the index and the same prompt sent
    to the model); and no query the call logs carries a filter. *)
Theorem get_output_with_rag_ignores_filter (E : Externals)
    (user_query : option string) (filter1 filter2 : option Where)
    (s : Session) :
  get_output_with_rag E user_query filter1 s
  = get_output_with_rag E user_query filter2 s
  ∧ ∃ new,
      calls (world (get_output_with_rag E user_query filter1 s).2)
      = new ++ calls (world s)
      ∧ Forall unfiltered new.
Proof.
  split; [reflexivity|].
  unfold get_output_with_rag.
  unfold mbind at 1, M_bind at 1. cbn [get_agent].
  destruct (llm (agent s)) as [model|]; [|by exists []].
  set (query := Py.or_else user_query (basic_prompt (agent s))).
  pose proof (build_context_from_search_world E query 5 s) as Hw.
  destruct (search_documents_calls E query 5 None (world s))
    as (new & Hnew & Hall).
  assert (Hunf : Forall unfiltered new).
  { apply Forall_forall. intros c Hc.
    destruct (Hall c Hc) as [->|[qe ->]]; done. }
  unfold mbind, M_bind.
  destruct (build_context_from_search E query 5 s) as [[rag|e] s'];
    simpl in Hw |- *.
  - eexists (_ :: new). split.
    + unfold on_store, call. simpl. rewrite Hw, Hnew. reflexivity.
    + constructor; [done|exact Hunf].
  - exists new. split; [|done]. by rewrite Hw, Hnew.
Qed.

(** ** The agent: context block (C7) *)

Lemma app_cons (c : ascii) (a s : string) :
  String c a +:+ s = String c (a +:+ s).
Proof. reflexivity. Qed.

Lemma string_app_assoc (a b c : string) : (a +:+ b) +:+ c = a +:+ (b +:+ c).
Proof.
  induction a as [|x a IH]; [done|]. rewrite !app_cons. by rewrite IH.
Qed.





Lemma rendered_blocks_cons (E : Externals) (i : Z) (r : SearchResult)
    (rest : list SearchResult) :
  ∃ tail, rendered_blocks E i (r :: rest) = String "010"%char tail.
Proof. eexists. reflexivity. Qed.



(** * Further properties *)

(** ** Listing documents *)

Lemma py_eq_sym (a b : pyval) : py_eq a b = py_eq b a.
Proof.
  assert (Hq : ∀ x y : Q, Qeq_bool x y = Qeq_bool y x).
  { intros x y. destruct (Qeq_bool x y) eqn:H1, (Qeq_bool y x) eqn:H2; try done.
    - apply Qeq_bool_iff in H1. symmetry in H1. apply Qeq_bool_iff in H1.
      congruence.
    - apply Qeq_bool_iff in H2. symmetry in H2. apply Qeq_bool_iff in H2.
      congruence. }
  destruct a, b; simpl; try done; try apply Hq. apply String.eqb_sym.
Qed.

Lemma py_eq_refl (a : pyval) : py_eq a a = true.
Proof.
  destruct a; simpl; try (apply Qeq_bool_iff; reflexivity).
  apply String.eqb_refl.
Qed.

Lemma py_eq_str (s : string) (v : pyval) :
  py_eq (PStr s) v = true ↔ v = PStr s.
Proof.
  destruct v; simpl; split; try done.
  - intros H. apply String.eqb_eq in H. by subst.
  - intros [= ->]. apply String.eqb_refl.
Qed.

Lemma dict_contains_false (d : Dict) (key : pyval) (kv : pyval * Metadata) :
  dict_contains d key = false → kv ∈ d → py_eq kv.1 key = false.
Proof.
  unfold dict_contains. intros H Hin.
  destruct (py_eq kv.1 key) eqn:He; [|done].
  assert (existsb (fun kv => py_eq kv.1 key) d = true); [|congruence].
  apply existsb_exists. exists kv. split; [by apply list_elem_of_In|done].
Qed.

Lemma dict_contains_true (d : Dict) (key : pyval) :
  dict_contains d key = true → ∃ kv, kv ∈ d ∧ py_eq kv.1 key = true.
Proof.
  unfold dict_contains. intros H. apply existsb_exists in H as (kv & Hin & He).
  exists kv. split; [by apply list_elem_of_In|done].
Qed.

Lemma distinct_keys_snoc (d : Dict) (key : pyval) (m : Metadata) :
  distinct_keys d → dict_contains d key = false →
  distinct_keys (d ++ [(key, m)]).
Proof.
  intros Hd Hc i j a b Hi Hj Hab.
  destruct (decide (i < length d)) as [Hil|Hil],
           (decide (j < length d)) as [Hjl|Hjl].
  - rewrite lookup_app_l in Hi, Hj by done. by eapply Hd.
  - rewrite lookup_app_l in Hi by done. rewrite lookup_app_r in Hj by lia.
    apply list_lookup_singleton_Some in Hj as [_ <-]. simpl in Hab.
    assert (Hin : a ∈ d) by (eapply list_elem_of_lookup_2; done).
    pose proof (dict_contains_false d key a Hc Hin). congruence.
  - rewrite lookup_app_l in Hj by done. rewrite lookup_app_r in Hi by lia.
    apply list_lookup_singleton_Some in Hi as [_ <-]. simpl in Hab.
    assert (Hin : b ∈ d) by (eapply list_elem_of_lookup_2; done).
    pose proof (dict_contains_false d key b Hc Hin) as Hf.
    rewrite py_eq_sym in Hf. congruence.
  - rewrite lookup_app_r in Hi, Hj by lia.
    apply list_lookup_singleton_Some in Hi as [Hi _].
    apply list_lookup_singleton_Some in Hj as [Hj _]. lia.
Qed.

(** What the loop has built when it ends without raising. *)
Lemma unique_docs_loop_found (metadatas : list Metadata) :
  ∀ (acc out : Dict),
    unique_docs_loop metadatas acc = Found out →
    distinct_keys acc →
    (∀ kv, kv ∈ acc → kv.2 !! "doc_id" = Some kv.1) →
    distinct_keys out
    ∧ (∀ kv, kv ∈ out →
         kv.2 !! "doc_id" = Some kv.1 ∧ (kv ∈ acc ∨ kv.2 ∈ metadatas))
    ∧ (∀ kv, kv ∈ acc → kv ∈ out)
    ∧ (∀ m, m ∈ metadatas →
         ∃ d kv, m !! "doc_id" = Some d ∧ kv ∈ out ∧ py_eq kv.1 d = true).
Proof.
  induction metadatas as [|m rest IH]; intros acc out Hrun Hd Hk; simpl in Hrun.
  - injection Hrun as <-. split; [done|]. split; [|split].
    + intros kv Hin. split; [by apply Hk|by left].
    + done.
    + intros m Hm. by apply elem_of_nil in Hm.
  - destruct (decide (m = ∅)) as [Hempty|Hempty]; [done|].
    destruct (m !! "doc_id") as [d|] eqn:Hm; [|done].
    destruct (dict_contains acc d) eqn:Hc.
    + destruct (IH acc out Hrun Hd Hk) as (H1 & H2 & H3 & H4).
      split; [done|]. split; [|split; [done|]].
      * intros kv Hin. destruct (H2 kv Hin) as [Ha [Hb|Hb]];
          (split; [done|]); [by left|right; by right].
      * intros m' [->|Hm']%elem_of_cons; [|by apply H4].
        apply dict_contains_true in Hc as (kv & Hin & He).
        exists d, kv. split; [done|]. split; [by apply H3|done].
    + destruct (IH (acc ++ [(d, m)]) out Hrun) as (H1 & H2 & H3 & H4).
      { by apply distinct_keys_snoc. }
      { intros kv [Hin|Hin]%elem_of_app; [by apply Hk|].
        apply list_elem_of_singleton in Hin as ->. done. }
      split; [done|]. split; [|split].
      * intros kv Hin. destruct (H2 kv Hin) as [Ha [Hb|Hb]]; (split; [done|]).
        -- apply elem_of_app in Hb as [Hb|Hb]; [by left|].
           apply list_elem_of_singleton in Hb as ->. right. by left.
        -- right. by right.
      * intros kv Hin. apply H3. apply elem_of_app. by left.
      * intros m' [->|Hm']%elem_of_cons; [|by apply H4].
        exists d, (d, m). split; [done|]. split.
        -- apply H3. apply elem_of_app. right. by apply list_elem_of_singleton.
        -- apply py_eq_refl.
Qed.

(** The loop raises exactly when some metadata has no [doc_id]. *)
Lemma unique_docs_loop_raises (metadatas : list Metadata) :
  ∀ (acc : Dict),
    (∀ out, unique_docs_loop metadatas acc ≠ Found out)
    ↔ ∃ m, m ∈ metadatas ∧ m !! "doc_id" = None.
Proof.
  induction metadatas as [|m rest IH]; intros acc; simpl.
  - split; [intros H; by destruct (H acc)|].
    intros (m & Hm & _). by apply elem_of_nil in Hm.
  - destruct (decide (m = ∅)) as [->|Hempty].
    { split; [|done]. intros _. exists ∅. split; [by left|done]. }
    destruct (m !! "doc_id") as [d|] eqn:Hm.
    + rewrite IH. split.
      * intros (m' & Hin & Hn). exists m'. split; [by right|done].
      * intros (m' & [->|Hin]%elem_of_cons & Hn); [congruence|eauto].
    + split; [|done]. intros _. exists m. split; [by left|done].
Qed.

(** [KeyError] names [doc_id] and comes from a dict without that key. *)
Lemma unique_docs_loop_key_error (metadatas : list Metadata) :
  ∀ (acc : Dict) (key : string),
    unique_docs_loop metadatas acc = KeyError key →
    key = "doc_id"
    ∧ ∃ m, m ∈ metadatas ∧ m ≠ ∅ ∧ m !! "doc_id" = None.
Proof.
  induction metadatas as [|m rest IH]; intros acc key; simpl; [done|].
  destruct (decide (m = ∅)) as [->|Hempty]; [done|].
  destruct (m !! "doc_id") as [d|] eqn:Hm.
  - intros H. destruct (IH _ _ H) as (-> & m' & Hin & Hne & Hn).
    split; [done|]. exists m'. split; [by right|done].
  - intros [= <-]. split; [done|]. exists m. split; [by left|done].
Qed.

(** [TypeError] comes from a record without metadata. *)
Lemma unique_docs_loop_type_error (metadatas : list Metadata) :
  ∀ (acc : Dict) (msg : string),
    unique_docs_loop metadatas acc = TypeError msg → ∅ ∈ metadatas.
Proof.
  induction metadatas as [|m rest IH]; intros acc msg; simpl; [done|].
  destruct (decide (m = ∅)) as [->|Hempty]; [intros _; by left|].
  destruct (m !! "doc_id") as [d|] eqn:Hm; [|done].
  intros H. right. by eapply IH.
Qed.

(** The metadatas [collection.get()] returns are those of the records. *)
Lemma get_all_metadatas (c : Chroma.Collection) (m : Metadata) :
  m ∈ Chroma.g_metadatas (Chroma.get None c)
  ↔ ∃ id e, c !! id = Some e ∧ Chroma.e_metadata e = m.
Proof.
  unfold Chroma.get. cbn [Chroma.g_metadatas].
  rewrite map_filter_id by done.
  rewrite list_elem_of_fmap. split.
  - intros (e & -> & He). apply list_elem_of_fmap in He as ([id e'] & -> & Hin).
    apply elem_of_map_to_list in Hin. eauto.
  - intros (id & e & Hl & <-). exists e. split; [done|].
    apply list_elem_of_fmap. exists (id, e). split; [done|].
    by apply elem_of_map_to_list.
Qed.

Lemma get_all_missing_doc_id (c : Chroma.Collection) :
  (∃ m, m ∈ Chroma.g_metadatas (Chroma.get None c) ∧ m !! "doc_id" = None)
  ↔ ∃ id e, c !! id = Some e ∧ Chroma.e_metadata e !! "doc_id" = None.
Proof.
  split.
  - intros (m & Hm & Hn). apply get_all_metadatas in Hm as (id & e & Hl & <-).
    eauto.
  - intros (id & e & Hl & Hn). exists (Chroma.e_metadata e).
    split; [|done]. apply get_all_metadatas. eauto.
Qed.

(** [get_all_documents] raises exactly when the metadata of some record
    has no [doc_id]. *)
Lemma get_all_documents_raises (w : World) :
  (∀ docs, (get_all_documents w).1 ≠ Found docs)
  ↔ ∃ id e, collection w !! id = Some e
            ∧ Chroma.e_metadata e !! "doc_id" = None.
Proof.
  rewrite <- (get_all_missing_doc_id (collection w)).
  rewrite <- (unique_docs_loop_raises _ []).
  unfold get_all_documents.
  destruct (unique_docs_loop _ []) as [out|key|msg]; simpl; split; intros H;
    try done.
  - by destruct (H out.*2).
  - by destruct (H out).
Qed.

(** X1: when [get_all_documents] returns, the collection is untouched; every
    metadata returned is that of a stored record; every stored record's
    [doc_id] is the [doc_id] of a metadata returned; and no two metadatas
    returned have equal [doc_id]s. *)
Theorem get_all_documents_lists_documents (w w' : World)
    (docs : list Metadata) :
  get_all_documents w = (Found docs, w') →
  collection w' = collection w
  ∧ (∀ m, m ∈ docs →
       ∃ id e, collection w !! id = Some e ∧ Chroma.e_metadata e = m)
  ∧ (∀ id e, collection w !! id = Some e →
       ∃ m d d', m ∈ docs ∧ m !! "doc_id" = Some d'
                 ∧ Chroma.e_metadata e !! "doc_id" = Some d
                 ∧ py_eq d' d = true)
  ∧ (∀ (i j : nat) (m1 m2 : Metadata) (d1 d2 : pyval),
       docs !! i = Some m1 → docs !! j = Some m2 →
       m1 !! "doc_id" = Some d1 → m2 !! "doc_id" = Some d2 →
       py_eq d1 d2 = true → i = j).
Proof.
  unfold get_all_documents.
  destruct (unique_docs_loop _ []) as [out|key|msg] eqn:Hloop; [|done..].
  intros [= <- <-].
  destruct (unique_docs_loop_found _ [] out Hloop) as (Hd & Hin & _ & Hall).
  { intros i j a b Hi. done. }
  { intros kv Hkv. by apply elem_of_nil in Hkv. }
  split; [done|]. split; [|split].
  - intros m Hm. apply list_elem_of_fmap in Hm as (kv & -> & Hkv).
    destruct (Hin kv Hkv) as [_ [Hnil|Hm]]; [by apply elem_of_nil in Hnil|].
    by apply get_all_metadatas.
  - intros id e Hl.
    destruct (Hall (Chroma.e_metadata e)) as (d & kv & Hm & Hkv & He).
    { apply get_all_metadatas. eauto. }
    exists kv.2, d, kv.1. split; [|split; [|done]].
    + apply list_elem_of_fmap. eauto.
    + by apply Hin.
  - intros i j m1 m2 d1 d2 Hi Hj H1 H2 He.
    rewrite list_lookup_fmap in Hi, Hj.
    destruct (out !! i) as [a|] eqn:Ha; [|done].
    destruct (out !! j) as [b|] eqn:Hb; [|done].
    simpl in Hi, Hj. injection Hi as <-. injection Hj as <-.
    apply (Hd i j a b Ha Hb).
    destruct (Hin a) as [Hka _]; [by eapply list_elem_of_lookup_2|].
    destruct (Hin b) as [Hkb _]; [by eapply list_elem_of_lookup_2|].
    congruence.
Qed.

Lemma get_all_documents_lists_documents_witness :
  ∃ docs w',
    get_all_documents Demo.world3 = (Found docs, w')
    ∧ length docs = 2%nat
    ∧ ∀ m, m ∈ docs →
        ∃ id e, collection Demo.world3 !! id = Some e
                ∧ Chroma.e_metadata e = m.
Proof.
  eexists. eexists.
  assert (Hrun : get_all_documents Demo.world3
                 = (Found [ {[ "doc_id" := PStr "d1" ]};
                            {[ "doc_id" := PStr "d2"; "source" := PInt 7 ]} ],
                    (get_all_documents Demo.world3).2)).
  { vm_compute. reflexivity. }
  split; [exact Hrun|]. split; [reflexivity|].
  destruct (get_all_documents_lists_documents _ _ _ Hrun) as (_ & Hm & _).
  exact Hm.
Defined.

(** X2: [get_all_documents] raises exactly when the metadata of some
    record has no [doc_id] key.  When it raises [KeyError] the key named is
    [doc_id] and some record has a metadata dict without that key; when it
    raises [TypeError] some record was stored without metadata.  On a
    collection whose records all have metadata, a record without [doc_id]
    makes it raise [KeyError] for [doc_id]. *)
Theorem get_all_documents_key_error (w : World) :
  ((∀ docs, (get_all_documents w).1 ≠ Found docs)
   ↔ ∃ id e, collection w !! id = Some e
             ∧ Chroma.e_metadata e !! "doc_id" = None)
  ∧ (∀ key, (get_all_documents w).1 = KeyError key →
       key = "doc_id"
       ∧ ∃ id e, collection w !! id = Some e
                 ∧ Chroma.e_metadata e ≠ ∅
                 ∧ Chroma.e_metadata e !! "doc_id" = None)
  ∧ (∀ msg, (get_all_documents w).1 = TypeError msg →
       ∃ id e, collection w !! id = Some e ∧ Chroma.e_metadata e = ∅)
  ∧ ((∀ id e, collection w !! id = Some e → Chroma.e_metadata e ≠ ∅) →
     (∃ id e, collection w !! id = Some e
              ∧ Chroma.e_metadata e !! "doc_id" = None) →
     (get_all_documents w).1 = KeyError "doc_id").
Proof.
  assert (Hkey : ∀ key, (get_all_documents w).1 = KeyError key →
            key = "doc_id"
            ∧ ∃ id e, collection w !! id = Some e
                      ∧ Chroma.e_metadata e ≠ ∅
                      ∧ Chroma.e_metadata e !! "doc_id" = None).
  { intros key. unfold get_all_documents.
    destruct (unique_docs_loop _ []) as [out|k|msg] eqn:Hloop; simpl;
      try done.
    intros [= <-].
    apply unique_docs_loop_key_error in Hloop as (-> & m & Hin & Hne & Hn).
    split; [done|].
    apply get_all_metadatas in Hin as (id & e & Hl & <-). eauto. }
  assert (Htype : ∀ msg, (get_all_documents w).1 = TypeError msg →
            ∃ id e, collection w !! id = Some e ∧ Chroma.e_metadata e = ∅).
  { intros msg. unfold get_all_documents.
    destruct (unique_docs_loop _ []) as [out|k|m] eqn:Hloop; simpl;
      try done.
    intros _. apply unique_docs_loop_type_error in Hloop.
    by apply get_all_metadatas in Hloop. }
  split; [apply get_all_documents_raises|]. split; [exact Hkey|].
  split; [exact Htype|].
  intros Hdict Hex.
  pose proof (proj2 (get_all_documents_raises w) Hex) as Hno.
  destruct (get_all_documents w).1 as [docs|key|msg] eqn:Hrun.
  - by destruct (Hno docs).
  - by destruct (Hkey key eq_refl) as [-> _].
  - destruct (Htype msg eq_refl) as (id & e & Hl & He).
    by destruct (Hdict id e Hl).
Qed.

(** ** Ingestion and deletion together *)

Lemma add_rows_union (rows : list (string * Chroma.Entry)) :
  ∀ c : Chroma.Collection,
    foldl Chroma.add_row c rows = c ∪ list_to_map rows.
Proof.
  induction rows as [|[k v] rows IH]; intros c; simpl.
  - by rewrite (right_id_L ∅ (∪)).
  - rewrite IH. apply map_eq. intros i. unfold Chroma.add_row. simpl.
    destruct (c !! k) as [e|] eqn:Hk; rewrite !lookup_union.
    + destruct (decide (k = i)) as [<-|Hne].
      * rewrite Hk, lookup_insert_eq. by destruct (list_to_map rows !! k).
      * by rewrite lookup_insert_ne.
    + destruct (decide (k = i)) as [<-|Hne].
      * rewrite Hk, !lookup_insert_eq. by destruct (list_to_map rows !! k).
      * by rewrite !lookup_insert_ne.
Qed.

Lemma base_metadata_doc_id (file_path doc_id : string) (chunks : list string)
    (metadata : option Metadata) :
  base_metadata file_path doc_id chunks metadata !! "doc_id"
  = Some (default (PStr doc_id) (caller_value metadata "doc_id")).
Proof.
  assert (Hbase : ({[ "source" := PStr file_path; "doc_id" := PStr doc_id;
                      "total_chunks" := PInt (Z.of_nat (length chunks)) ]}
                   : Metadata) !! "doc_id" = Some (PStr doc_id)).
  { by simplify_map_eq. }
  unfold base_metadata. destruct metadata as [m|]; simpl; [|exact Hbase].
  unfold dict_truthy. case_bool_decide as Hm.
  - rewrite lookup_union. rewrite Hbase. by destruct (m !! "doc_id").
  - subst m. rewrite lookup_empty. exact Hbase.
Qed.

Lemma base_metadata_source (file_path doc_id : string) (chunks : list string)
    (metadata : option Metadata) :
  base_metadata file_path doc_id chunks metadata !! "source"
  = Some (default (PStr file_path) (caller_value metadata "source")).
Proof.
  assert (Hbase : ({[ "source" := PStr file_path; "doc_id" := PStr doc_id;
                      "total_chunks" := PInt (Z.of_nat (length chunks)) ]}
                   : Metadata) !! "source" = Some (PStr file_path)).
  { by simplify_map_eq. }
  unfold base_metadata. destruct metadata as [m|]; simpl; [|exact Hbase].
  unfold dict_truthy. case_bool_decide as Hm.
  - rewrite lookup_union. rewrite Hbase. by destruct (m !! "source").
  - subst m. rewrite lookup_empty. exact Hbase.
Qed.

(** The collection after a successful [add_document]: the old records, and
    the rows written under identifiers that were free. *)
Lemma add_document_collection (E : Externals) (self : DocumentStore)
    (uuid4 file_path : string) (metadata : option Metadata) (w w' : World)
    (doc_id : string) :
  add_document E self uuid4 file_path metadata w = (Ok doc_id, w') →
  collection w' = collection w ∪ list_to_map (written_batch w')
  ∧ NoDup (written_batch w').*1
  ∧ ∀ (id : string) (e : Chroma.Entry),
      (id, e) ∈ written_batch w' →
      (∃ i : nat, id = chunk_id uuid4 i)
      ∧ Chroma.e_metadata e !! "doc_id"
        = Some (default (PStr uuid4) (caller_value metadata "doc_id"))
      ∧ Chroma.e_metadata e !! "source"
        = Some (default (PStr file_path) (caller_value metadata "source")).
Proof.
  intros H.
  pose proof (add_document_batch _ _ _ _ _ _ _ _ H)
    as (text & w1 & Hx & -> & Hlen & Hrows).
  apply add_document_ok in H as (text' & w1' & embeddings & Hx' & He & Hl & _ & Hw).
  assert (text' = text) as -> by congruence.
  assert (w1' = w1) as -> by congruence.
  set (chunks := split_text E (text_splitter self) text) in *.
  assert (Hbatch : written_batch w'
                   = Chroma.rows (chunk_id uuid4 <$> seq 0 (length chunks))
                       chunks embeddings
                       (imap (chunk_metadata
                                (base_metadata file_path uuid4 chunks metadata))
                             chunks)).
  { by rewrite Hw. }
  split; [|split].
  - rewrite Hbatch, <- add_rows_union. by rewrite Hw.
  - rewrite Hbatch, rows_ids.
    + apply NoDup_fmap_2; [apply _|apply NoDup_seq].
    + by rewrite length_fmap, length_seq.
    + by rewrite length_fmap, length_seq.
    + by rewrite length_imap, length_fmap, length_seq.
  - intros id e Hin. apply list_elem_of_lookup in Hin as [i Hi].
    destruct (Hrows i (id, e) Hi) as (Hid & _ & Hmd & _). simpl in *.
    split; [eauto|]. rewrite Hmd.
    rewrite !chunk_metadata_other by done.
    split; [apply base_metadata_doc_id|apply base_metadata_source].
Qed.

Lemma add_document_raise_keeps (E : Externals) (self : DocumentStore)
    (uuid4 file_path : string) (metadata : option Metadata) (w w' : World)
    (e : exn) :
  add_document E self uuid4 file_path metadata w = (Raise e, w') →
  collection w' = collection w.
Proof.
  unfold add_document.
  destruct (extract_text_from_file E file_path w) as [[text|e'] w1] eqn:Hx;
    [erewrite bind_ok by exact Hx | erewrite bind_raise by exact Hx].
  - pose proof (extract_keeps_collection _ _ _ _ _ Hx) as Hc.
    unfold collection_add, Chroma.add. run.
    destruct (embed_documents E _) as [embeddings|e'']; simpl.
    + case_bool_decide; simpl; [done|]. by intros [= <- <-].
    + by intros [= <- <-].
  - intros [= <- <-]. by eapply extract_keeps_collection.
Qed.

Lemma delete_document_collection (doc_id : string) (w : World) :
  collection (delete_document doc_id w).2
  = filter (fun kv => ¬ has_doc_id doc_id kv.2) (collection w).
Proof.
  destruct (delete_document_run doc_id w) as (log & -> & _).
  cbn [snd collection]. apply map_eq. intros id. rewrite delete_lookup.
  destruct (collection w !! id) as [e|] eqn:Hl.
  - case_decide as Hin.
    + apply get_ids_doc_id in Hin as (e' & He' & Hd).
      assert (e' = e) as -> by congruence.
      symmetry. apply map_lookup_filter_None. right. intros e' He''.
      assert (e' = e) as -> by congruence. simpl. tauto.
    + symmetry. apply map_lookup_filter_Some. split; [done|]. simpl.
      intros Hd. apply Hin. apply get_ids_doc_id. eauto.
  - case_decide; symmetry; apply map_lookup_filter_None; left; done.
Qed.

Lemma delete_document_ok (doc_id : string) (w : World) :
  (delete_document doc_id w).1 = Ok tt.
Proof. by destruct (delete_document_run doc_id w) as (log & -> & _). Qed.

(** X3: a collection in which every record has a [doc_id] stays so under
    [add_document] (whatever its outcome) and [delete_document], and on
    such a collection [get_all_documents] does not raise. *)
Theorem store_keeps_doc_id (E : Externals) (self : DocumentStore)
    (uuid4 file_path : string) (metadata : option Metadata) (doc_id : string)
    (w : World) :
  all_have_doc_id (collection w) →
  all_have_doc_id
    (collection (add_document E self uuid4 file_path metadata w).2)
  ∧ all_have_doc_id (collection (delete_document doc_id w).2)
  ∧ ∃ docs, (get_all_documents w).1 = Found docs.
Proof.
  intros Hinv. split; [|split].
  - destruct (add_document E self uuid4 file_path metadata w) as [[d|e] w']
      eqn:Hrun; cbn [snd].
    + apply add_document_collection in Hrun as (Hc & Hnd & Hrows).
      intros id e. rewrite Hc. intros [Hl|[_ Hl]]%lookup_union_Some_raw.
      * by eapply Hinv.
      * apply elem_of_list_to_map_2 in Hl.
        destruct (Hrows id e Hl) as (_ & Hd & _). by rewrite Hd.
    + by rewrite (add_document_raise_keeps _ _ _ _ _ _ _ _ Hrun).
  - rewrite delete_document_collection. intros id e Hl.
    apply map_lookup_filter_Some in Hl as [Hl _]. by eapply Hinv.
  - destruct (get_all_documents w).1 as [docs|key|msg] eqn:Hrun;
      [by eexists|exfalso..].
    all: assert (Hex : ∀ docs, (get_all_documents w).1 ≠ Found docs)
           by (intros docs; by rewrite Hrun).
    all: destruct (proj1 (get_all_documents_raises w) Hex)
           as (id & e & Hl & Hn).
    all: destruct (Hinv id e Hl) as [d Hd]; congruence.
Qed.

Lemma demo_world3_has_doc_ids : all_have_doc_id (collection Demo.world3).
Proof.
  intros id e Hl.
  assert (Hin : (id, e) ∈ map_to_list (collection Demo.world3))
    by by apply elem_of_map_to_list.
  vm_compute in Hin.
  repeat (apply elem_of_cons in Hin as [Hin|Hin];
          [injection Hin as -> ->; vm_compute; eauto|]).
  by apply elem_of_nil in Hin.
Defined.

Lemma store_keeps_doc_id_witness :
  all_have_doc_id
    (collection (add_document Demo.externals Demo.store "u" "a.txt" None
                   Demo.world3).2)
  ∧ ∃ docs, (get_all_documents Demo.world3).1 = Found docs.
Proof.
  destruct (store_keeps_doc_id Demo.externals Demo.store "u" "a.txt" None
              "d1" Demo.world3 demo_world3_has_doc_ids) as (H1 & _ & H3).
  split; assumption.
Defined.

(** X4: deleting the document that a successful [add_document] returned
    gives back the collection as it was before the add, when the identifier
    drawn was unused (no chunk identifier and no [doc_id] of it in the
    collection) and the caller's metadata has no [doc_id] key. *)
Theorem add_then_delete_restores (E : Externals) (self : DocumentStore)
    (uuid4 file_path : string) (metadata : option Metadata) (w w' : World)
    (doc_id : string) :
  add_document E self uuid4 file_path metadata w = (Ok doc_id, w') →
  fresh_doc_id uuid4 (collection w) →
  unknown_doc_id uuid4 (collection w) →
  caller_value metadata "doc_id" = None →
  (delete_document doc_id w').1 = Ok tt
  ∧ collection (delete_document doc_id w').2 = collection w.
Proof.
  intros Hrun Hfresh Hunknown Hcaller.
  split; [apply delete_document_ok|].
  pose proof (add_document_batch _ _ _ _ _ _ _ _ Hrun) as (_ & _ & _ & -> & _).
  apply add_document_collection in Hrun as (Hc & Hnd & Hrows).
  rewrite delete_document_collection, Hc. apply map_eq. intros id.
  destruct (collection w !! id) as [e|] eqn:Hl.
  - apply map_lookup_filter_Some. split.
    + apply lookup_union_Some_raw. by left.
    + simpl. by eapply Hunknown.
  - apply map_lookup_filter_None. right. intros e He. simpl.
    apply lookup_union_Some_raw in He as [He|[_ He]]; [congruence|].
    apply elem_of_list_to_map_2 in He.
    destruct (Hrows id e He) as (_ & Hd & _).
    rewrite Hcaller in Hd. simpl in Hd. unfold has_doc_id. tauto.
Qed.

(** X5: when the caller's metadata names a [doc_id] other than the
    identifier returned, [delete_document] of the identifier returned
    removes nothing: the chunks just written stay in the collection. *)
Theorem delete_misses_renamed_document (E : Externals) (self : DocumentStore)
    (uuid4 file_path : string) (metadata : option Metadata) (w w' : World)
    (doc_id : string) (v : pyval) :
  add_document E self uuid4 file_path metadata w = (Ok doc_id, w') →
  caller_value metadata "doc_id" = Some v →
  v ≠ PStr doc_id →
  unknown_doc_id doc_id (collection w) →
  collection (delete_document doc_id w').2 = collection w'.
Proof.
  intros Hrun Hcaller Hv Hunknown.
  pose proof (add_document_batch _ _ _ _ _ _ _ _ Hrun) as (_ & _ & _ & -> & _).
  apply add_document_collection in Hrun as (Hc & Hnd & Hrows).
  rewrite delete_document_collection. apply map_filter_id.
  intros id e. rewrite Hc. simpl.
  intros [Hl|[_ Hl]]%lookup_union_Some_raw; [by eapply Hunknown|].
  apply elem_of_list_to_map_2 in Hl.
  destruct (Hrows id e Hl) as (_ & Hd & _).
  rewrite Hcaller in Hd. simpl in Hd. unfold has_doc_id. congruence.
Qed.

(** X6: after a successful [add_document] under an unused identifier and
    without a caller [doc_id], the records that carry the returned [doc_id]
    are as many as the chunks of the text. *)
Theorem add_document_entry_count (E : Externals) (self : DocumentStore)
    (uuid4 file_path : string) (metadata : option Metadata) (w w' : World)
    (doc_id : string) :
  add_document E self uuid4 file_path metadata w = (Ok doc_id, w') →
  fresh_doc_id uuid4 (collection w) →
  unknown_doc_id uuid4 (collection w) →
  caller_value metadata "doc_id" = None →
  ∃ text w1,
    extract_text_from_file E file_path w = (Ok text, w1)
    ∧ size (filter (fun kv => has_doc_id doc_id kv.2) (collection w'))
      = length (split_text E (text_splitter self) text).
Proof.
  intros Hrun Hfresh Hunknown Hcaller.
  pose proof (add_document_batch _ _ _ _ _ _ _ _ Hrun)
    as (text & w1 & Hx & -> & Hlen & _).
  exists text, w1. split; [done|]. rewrite <- Hlen.
  apply add_document_collection in Hrun as (Hc & Hnd & Hrows).
  rewrite <- (map_size_list_to_map (M := gmap string) (written_batch w'))
    by done.
  f_equal. rewrite Hc. apply map_eq. intros id.
  destruct (list_to_map (written_batch w') !! id) as [e|] eqn:Hl.
  - apply map_lookup_filter_Some.
    pose proof (elem_of_list_to_map_2 _ _ _ Hl) as Hin.
    destruct (Hrows id e Hin) as ([i ->] & Hd & _). split.
    + apply lookup_union_Some_raw. right. split; [apply Hfresh|done].
    + simpl. rewrite Hcaller in Hd. exact Hd.
  - apply map_lookup_filter_None. right. intros e He. simpl.
    apply lookup_union_Some_raw in He as [He|[_ He]]; [|congruence].
    by eapply Hunknown.
Qed.

Lemma empty_is_fresh (doc_id : string) :
  fresh_doc_id doc_id (collection Demo.empty_world)
  ∧ unknown_doc_id doc_id (collection Demo.empty_world).
Proof.
  split.
  - intros i. apply lookup_empty.
  - intros id e H. simpl in H. by rewrite lookup_empty in H.
Defined.

Lemma demo_world3_unknown_u : unknown_doc_id "u" (collection Demo.world3).
Proof.
  intros id e Hl.
  assert (Hin : (id, e) ∈ map_to_list (collection Demo.world3))
    by by apply elem_of_map_to_list.
  vm_compute in Hin.
  repeat (apply elem_of_cons in Hin as [Hin|Hin];
          [injection Hin as -> ->; vm_compute; discriminate|]).
  by apply elem_of_nil in Hin.
Defined.

(** A two-chunk text added to the empty collection, then deleted. *)
Lemma add_then_delete_restores_witness :
  ∃ w',
    add_document Demo.externals Demo.store "u" "a.txt" None Demo.empty_world
    = (Ok "u", w')
    ∧ collection (delete_document "u" w').2 = collection Demo.empty_world.
Proof.
  eexists.
  assert (Hrun : add_document Demo.externals Demo.store "u" "a.txt" None
                   Demo.empty_world
                 = (Ok "u", (add_document Demo.externals Demo.store "u" "a.txt"
                               None Demo.empty_world).2)).
  { vm_compute. reflexivity. }
  split; [exact Hrun|].
  apply (add_then_delete_restores _ _ _ _ _ _ _ _ Hrun).
  - apply (proj1 (empty_is_fresh "u")).
  - apply (proj2 (empty_is_fresh "u")).
  - reflexivity.
Defined.

(** A caller names the document "mine"; deleting "u" changes nothing. *)
Lemma delete_misses_renamed_document_witness :
  ∃ w',
    add_document Demo.externals Demo.store "u" "a.txt"
      (Some {[ "doc_id" := PStr "mine" ]}) Demo.world3
    = (Ok "u", w')
    ∧ collection (delete_document "u" w').2 = collection w'.
Proof.
  eexists.
  assert (Hrun : add_document Demo.externals Demo.store "u" "a.txt"
                   (Some {[ "doc_id" := PStr "mine" ]}) Demo.world3
                 = (Ok "u", (add_document Demo.externals Demo.store "u" "a.txt"
                               (Some {[ "doc_id" := PStr "mine" ]})
                               Demo.world3).2)).
  { vm_compute. reflexivity. }
  split; [exact Hrun|].
  apply (delete_misses_renamed_document _ _ _ _ _ _ _ _ (PStr "mine") Hrun).
  - reflexivity.
  - discriminate.
  - exact demo_world3_unknown_u.
Defined.

(** Two chunks added to the empty collection: two records carry "u". *)
Lemma add_document_entry_count_witness :
  ∃ w',
    add_document Demo.externals Demo.store "u" "a.txt" None Demo.empty_world
    = (Ok "u", w')
    ∧ size (filter (fun kv => has_doc_id "u" kv.2) (collection w')) = 2%nat.
Proof.
  eexists.
  assert (Hrun : add_document Demo.externals Demo.store "u" "a.txt" None
                   Demo.empty_world
                 = (Ok "u", (add_document Demo.externals Demo.store "u" "a.txt"
                               None Demo.empty_world).2)).
  { vm_compute. reflexivity. }
  split; [exact Hrun|].
  destruct (add_document_entry_count _ _ _ _ _ _ _ _ Hrun
              (proj1 (empty_is_fresh "u")) (proj2 (empty_is_fresh "u"))
              eq_refl) as (text & w1 & Hx & Hsize).
  rewrite Hsize.
  assert (text = "alpha beta") as ->.
  { vm_compute in Hx. by injection Hx as <- _. }
  reflexivity.
Defined.

(** X7: [add_document] changes no record outside the chunk identifiers of
    the identifier drawn, and when it raises, for whatever reason, the
    collection is the one it started with. *)
Theorem add_document_touches_only_its_ids (E : Externals)
    (self : DocumentStore) (uuid4 file_path : string)
    (metadata : option Metadata) (w : World) :
  (∀ id : string,
     (∀ i : nat, id ≠ chunk_id uuid4 i) →
     collection (add_document E self uuid4 file_path metadata w).2 !! id
     = collection w !! id)
  ∧ (∀ e w',
       add_document E self uuid4 file_path metadata w = (Raise e, w') →
       collection w' = collection w).
Proof.
  split; [|intros e w'; apply add_document_raise_keeps].
  intros id Hid.
  destruct (add_document E self uuid4 file_path metadata w) as [[d|e] w']
    eqn:Hrun; cbn [snd].
  - apply add_document_collection in Hrun as (Hc & Hnd & Hrows).
    rewrite Hc, lookup_union.
    destruct (list_to_map (written_batch w') !! id) as [e|] eqn:Hl.
    + apply elem_of_list_to_map_2 in Hl.
      destruct (Hrows id e Hl) as ([i ->] & _). by destruct (Hid i).
    + by destruct (collection w !! id).
  - by rewrite (add_document_raise_keeps _ _ _ _ _ _ _ _ Hrun).
Qed.

(** The record "d2_0" survives an add under "u"; a failed add keeps all. *)
Lemma add_document_touches_only_its_ids_witness :
  collection (add_document Demo.externals Demo.store "u" "a.txt" None
                Demo.world3).2 !! "d2_0"
  = collection Demo.world3 !! "d2_0"
  ∧ collection (add_document Demo.externals Demo.store "u" "boom.txt" None
                  Demo.world3).2
    = collection Demo.world3.
Proof.
  split.
  - apply (proj1 (add_document_touches_only_its_ids Demo.externals Demo.store
                    "u" "a.txt" None Demo.world3)).
    intros i H. unfold chunk_id in H. discriminate H.
  - eapply (proj2 (add_document_touches_only_its_ids Demo.externals Demo.store
                     "u" "boom.txt" None Demo.world3)).
    vm_compute. reflexivity.
Defined.

(** X8: a second [delete_document] of the same identifier does not raise,
    changes nothing and only calls [collection.get]. *)
Theorem delete_document_idempotent (doc_id : string) (w : World) :
  (delete_document doc_id (delete_document doc_id w).2).1 = Ok tt
  ∧ collection (delete_document doc_id (delete_document doc_id w).2).2
    = collection (delete_document doc_id w).2
  ∧ calls (delete_document doc_id (delete_document doc_id w).2).2
    = CallGet (Some {[ "doc_id" := PStr doc_id ]})
        :: calls (delete_document doc_id w).2.
Proof.
  split; [apply delete_document_ok|]. split.
  - rewrite (delete_document_collection doc_id (delete_document doc_id w).2).
    apply map_filter_id. intros id e Hl. simpl.
    rewrite delete_document_collection in Hl.
    by apply map_lookup_filter_Some in Hl as [_ Hl].
  - set (w1 := (delete_document doc_id w).2).
    destruct (delete_document_run doc_id w1) as (log & -> & Hlog).
    cbn [snd calls]. rewrite Hlog; [done|].
    destruct (Chroma.g_ids _) as [|id ids] eqn:Hids; [done|].
    assert (Hin : id ∈ Chroma.g_ids
               (Chroma.get (Some {[ "doc_id" := PStr doc_id ]}) (collection w1)))
      by (rewrite Hids; left).
    apply get_ids_doc_id in Hin as (e & Hl & Hd).
    unfold w1 in Hl. rewrite delete_document_collection in Hl.
    apply map_lookup_filter_Some in Hl as [_ Hl]. by destruct Hl.
Qed.

(** X9: after [delete_document] of an identifier, [get_all_documents] lists
    no document with that [doc_id]. *)
Theorem delete_then_list (doc_id : string) (w w2 : World)
    (docs : list Metadata) :
  get_all_documents (delete_document doc_id w).2 = (Found docs, w2) →
  ∀ m, m ∈ docs → m !! "doc_id" ≠ Some (PStr doc_id).
Proof.
  unfold get_all_documents.
  destruct (unique_docs_loop _ []) as [out|key|msg] eqn:Hloop; [|done..].
  intros [= <- <-] m Hm.
  destruct (unique_docs_loop_found _ [] out Hloop) as (_ & Hin & _).
  { intros i j a b Hi. done. }
  { intros kv Hkv. by apply elem_of_nil in Hkv. }
  apply list_elem_of_fmap in Hm as (kv & -> & Hkv).
  destruct (Hin kv Hkv) as [_ [Hnil|Hmd]]; [by apply elem_of_nil in Hnil|].
  apply get_all_metadatas in Hmd as (id & e & Hl & <-).
  rewrite delete_document_collection in Hl.
  by apply map_lookup_filter_Some in Hl as [_ Hl].
Qed.

(** After deleting "d1" from the three records only "d2" is listed. *)
Lemma delete_then_list_witness :
  ∃ docs w2,
    get_all_documents (delete_document "d1" Demo.world3).2 = (Found docs, w2)
    ∧ length docs = 1%nat
    ∧ ∀ m, m ∈ docs → m !! "doc_id" ≠ Some (PStr "d1").
Proof.
  eexists. eexists.
  assert (Hrun : get_all_documents (delete_document "d1" Demo.world3).2
                 = (Found [ {[ "doc_id" := PStr "d2"; "source" := PInt 7 ]} ],
                    (get_all_documents (delete_document "d1" Demo.world3).2).2)).
  { vm_compute. reflexivity. }
  split; [exact Hrun|]. split; [reflexivity|].
  exact (delete_then_list _ _ _ _ Hrun).
Defined.

(** X10: after a successful [add_document] that wrote at least one chunk
    under an unused identifier and without a caller [doc_id],
    [get_all_documents], when it returns, lists the new document exactly
    once. *)
Theorem add_then_list (E : Externals) (self : DocumentStore)
    (uuid4 file_path : string) (metadata : option Metadata) (w w' w2 : World)
    (doc_id : string) (docs : list Metadata) :
  add_document E self uuid4 file_path metadata w = (Ok doc_id, w') →
  written_batch w' ≠ [] →
  fresh_doc_id uuid4 (collection w) →
  caller_value metadata "doc_id" = None →
  get_all_documents w' = (Found docs, w2) →
  ∃ (i : nat) (m : Metadata),
    docs !! i = Some m
    ∧ m !! "doc_id" = Some (PStr doc_id)
    ∧ ∀ (j : nat) (m' : Metadata),
        docs !! j = Some m' → m' !! "doc_id" = Some (PStr doc_id) → j = i.
Proof.
  intros Hrun Hne Hfresh Hcaller Hlist.
  pose proof (add_document_batch _ _ _ _ _ _ _ _ Hrun) as (_ & _ & _ & -> & _).
  apply add_document_collection in Hrun as (Hc & Hnd & Hrows).
  destruct (written_batch w') as [|[id0 e0] rows] eqn:Hbatch; [done|].
  assert (Hin0 : (id0, e0) ∈ (id0, e0) :: rows) by left.
  destruct (Hrows id0 e0 Hin0) as ([i0 ->] & Hd0 & _).
  rewrite Hcaller in Hd0. simpl in Hd0.
  assert (Hstored : collection w' !! chunk_id uuid4 i0 = Some e0).
  { rewrite Hc. apply lookup_union_Some_raw. right. split; [apply Hfresh|].
    by apply elem_of_list_to_map_1. }
  unfold get_all_documents in Hlist.
  destruct (unique_docs_loop _ []) as [out|key|msg] eqn:Hloop; [|done..].
  injection Hlist as <- _.
  destruct (unique_docs_loop_found _ [] out Hloop) as (Hd & Hin & _ & Hall).
  { intros i j a b Hi. done. }
  { intros kv Hkv. by apply elem_of_nil in Hkv. }
  destruct (Hall (Chroma.e_metadata e0)) as (d & kv & Hm & Hkv & He).
  { apply get_all_metadatas. eauto. }
  assert (d = PStr uuid4) as -> by congruence.
  rewrite py_eq_sym in He. apply py_eq_str in He.
  apply list_elem_of_lookup in Hkv as [i Hi].
  destruct (Hin kv) as [Hkey _]; [by eapply list_elem_of_lookup_2|].
  exists i, kv.2. split; [by rewrite list_lookup_fmap, Hi|].
  split; [congruence|].
  intros j m' Hj Hm'. rewrite list_lookup_fmap in Hj.
  destruct (out !! j) as [b|] eqn:Hb; [|done]. simpl in Hj. injection Hj as <-.
  destruct (Hin b) as [Hkb _]; [by eapply list_elem_of_lookup_2|].
  apply (Hd j i b kv Hb Hi).
  assert (b.1 = PStr uuid4) as -> by congruence.
  rewrite He. apply py_eq_refl.
Qed.

(** After adding "u" to the empty collection, "u" is listed. *)
Lemma add_then_list_witness :
  ∃ (docs : list Metadata) (i : nat) (m : Metadata),
    (get_all_documents
       (add_document Demo.externals Demo.store "u" "a.txt" None
          Demo.empty_world).2).1 = Found docs
    ∧ docs !! i = Some m
    ∧ m !! "doc_id" = Some (PStr "u").
Proof.
  assert (Hrun : add_document Demo.externals Demo.store "u" "a.txt" None
                   Demo.empty_world
                 = (Ok "u", (add_document Demo.externals Demo.store "u" "a.txt"
                               None Demo.empty_world).2)).
  { vm_compute. reflexivity. }
  set (w' := (add_document Demo.externals Demo.store "u" "a.txt" None
                Demo.empty_world).2) in *.
  destruct (get_all_documents w') as [[docs|key|msg] w2] eqn:Hlist.
  - assert (Hne : written_batch w' ≠ []) by (vm_compute; discriminate).
    destruct (add_then_list Demo.externals Demo.store "u" "a.txt" None
                Demo.empty_world w' w2 "u" docs Hrun Hne
                (proj1 (empty_is_fresh "u")) eq_refl Hlist)
      as (i & m & Hi & Hm & _).
    exists docs, i, m. repeat split; assumption.
  - vm_compute in Hlist. discriminate Hlist.
  - vm_compute in Hlist. discriminate Hlist.
Defined.

(** X11: without caller values, every chunk written by a successful
    [add_document] has the path as it was passed under [source] and the
    returned identifier under [doc_id]; a caller's [source] or [doc_id]
    takes their place. *)
Theorem add_document_default_metadata (E : Externals) (self : DocumentStore)
    (uuid4 file_path : string) (metadata : option Metadata) (w w' : World)
    (doc_id : string) :
  add_document E self uuid4 file_path metadata w = (Ok doc_id, w') →
  ∀ (i : nat) (row : string * Chroma.Entry),
    written_batch w' !! i = Some row →
    Chroma.e_metadata row.2 !! "source"
    = Some (default (PStr file_path) (caller_value metadata "source"))
    ∧ Chroma.e_metadata row.2 !! "doc_id"
      = Some (default (PStr doc_id) (caller_value metadata "doc_id")).
Proof.
  intros Hrun i [id e] Hi.
  pose proof (add_document_batch _ _ _ _ _ _ _ _ Hrun) as (_ & _ & _ & -> & _).
  apply add_document_collection in Hrun as (_ & _ & Hrows).
  destruct (Hrows id e) as (_ & Hd & Hs); [by eapply list_elem_of_lookup_2|].
  done.
Qed.

(** A relative path is stored as written. *)
Lemma add_document_default_metadata_witness :
  ∃ row : string * Chroma.Entry,
    written_batch
      (add_document Demo.externals Demo.store "u" "./docs//a.txt" None
         Demo.empty_world).2 !! 0%nat = Some row
    ∧ Chroma.e_metadata row.2 !! "source" = Some (PStr "./docs//a.txt")
    ∧ Chroma.e_metadata row.2 !! "doc_id" = Some (PStr "u").
Proof.
  assert (Hrun : add_document Demo.externals Demo.store "u" "./docs//a.txt"
                   None Demo.empty_world
                 = (Ok "u", (add_document Demo.externals Demo.store "u"
                               "./docs//a.txt" None Demo.empty_world).2)).
  { vm_compute. reflexivity. }
  eexists. split; [vm_compute; reflexivity|].
  apply (add_document_default_metadata Demo.externals Demo.store "u"
           "./docs//a.txt" None Demo.empty_world _ "u" Hrun 0%nat).
  vm_compute. reflexivity.
Defined.

(** ** Chunk identifiers and previews *)

Lemma rfind_cons_none (c a : ascii) (s : string) :
  Py.rfind c (String a s) = None ↔ Ascii.eqb a c = false ∧ Py.rfind c s = None.
Proof.
  simpl. destruct (Py.rfind c s); [by split; [|intros [_ ?]]|].
  destruct (Ascii.eqb a c); by split; [|intros [? _]].
Qed.

Lemma rfind_app_last (c : ascii) (a d : string) :
  Py.rfind c d = None →
  Py.rfind c (a +:+ String c d) = Some (String.length a).
Proof.
  intros Hd. induction a as [|x a IH].
  - change ("" +:+ String c d) with (String c d). simpl.
    by rewrite Hd, Ascii.eqb_refl.
  - rewrite app_cons. simpl. by rewrite IH.
Qed.

Lemma app_inj_length (a b x y : string) :
  String.length a = String.length b → a +:+ x = b +:+ y → a = b ∧ x = y.
Proof.
  revert b. induction a as [|c a IH]; intros [|c' b] Hlen H; try discriminate.
  - done.
  - rewrite !app_cons in H. injection H as -> H. injection Hlen as Hlen.
    destruct (IH b Hlen H) as [-> ->]. done.
Qed.

Lemma pretty_N_go_no_underscore (x : N) :
  ∀ s, Py.rfind "_"%char s = None → Py.rfind "_"%char (pretty_N_go x s) = None.
Proof.
  induction (N.lt_wf_0 x) as [x _ IH]; intros s Hs.
  assert (x = 0 ∨ 0 < x)%N as [->|Hpos] by lia.
  - by rewrite pretty_N_go_0.
  - rewrite pretty_N_go_step by done. apply IH; [by apply N.div_lt|].
    apply rfind_cons_none. split; [|done].
    unfold pretty_N_char. by repeat case_match.
Qed.

Lemma str_int_no_underscore (i : nat) :
  Py.rfind "_"%char (Py.str_int (Z.of_nat i)) = None.
Proof.
  unfold Py.str_int, pretty, pretty_Z.
  destruct (Z.of_nat i) as [|p|p] eqn:Hi; [done| |lia].
  unfold pretty, pretty_positive, pretty, pretty_N.
  case_decide; [done|]. by apply pretty_N_go_no_underscore.
Qed.

(** X12: a chunk identifier determines both the document identifier and the
    index it was built from, so chunks of different documents never share
    an identifier, whatever characters the document identifiers contain. *)
Theorem chunk_id_determines_document (doc_id1 doc_id2 : string) (i j : nat) :
  chunk_id doc_id1 i = chunk_id doc_id2 j → doc_id1 = doc_id2 ∧ i = j.
Proof.
  intros H. unfold chunk_id in H.
  change ("_" +:+ ?s) with (String "_"%char s) in H.
  assert (Hlen : String.length doc_id1 = String.length doc_id2).
  { pose proof (rfind_app_last "_"%char doc_id1 _ (str_int_no_underscore i))
      as H1.
    pose proof (rfind_app_last "_"%char doc_id2 _ (str_int_no_underscore j))
      as H2.
    rewrite H in H1. congruence. }
  destruct (app_inj_length _ _ _ _ Hlen H) as [-> Hs].
  split; [done|]. injection Hs as Hs. apply (inj pretty) in Hs. lia.
Qed.

Lemma chunk_id_determines_document_witness :
  chunk_id "a_1" 0 = "a_1_0" ∧ "a_1" = "a_1" ∧ 0%nat = 0%nat.
Proof.
  split; [reflexivity|].
  apply (chunk_id_determines_document "a_1" "a_1" 0 0). reflexivity.
Defined.

Lemma string_length_app (a b : string) :
  String.length (a +:+ b) = (String.length a + String.length b)%nat.
Proof.
  induction a as [|x a IH]; [done|]. rewrite app_cons. simpl. by rewrite IH.
Qed.

Lemma take_length (n : nat) :
  ∀ s, String.length (Py.take n s) = Nat.min n (String.length s).
Proof.
  unfold Py.take. induction n as [|n IH]; intros [|c s]; simpl; try done.
  by rewrite IH.
Qed.

Lemma take_all (n : nat) :
  ∀ s, (String.length s <= n)%nat → Py.take n s = s.
Proof.
  unfold Py.take. induction n as [|n IH]; intros [|c s]; simpl; intros H;
    try done; [lia|].
  rewrite IH; [done|lia].
Qed.

Lemma take_take_app (n : nat) :
  ∀ s t, (n <= String.length s)%nat →
         Py.take n (Py.take n s +:+ t) = Py.take n s.
Proof.
  unfold Py.take. induction n as [|n IH]; intros [|c s] t; simpl; intros H;
    try lia.
  - change ("" +:+ t) with t. by destruct t.
  - change ("" +:+ t) with t. by destruct t.
  - rewrite IH; [done|lia].
Qed.

Lemma chunk_metadata_text (base : Metadata) (i : nat) (chunk : string) :
  chunk_metadata base i chunk !! "chunk_text" = Some (PStr (chunk_preview chunk)).
Proof. unfold chunk_metadata. by rewrite lookup_insert_eq. Qed.

(** X13: every chunk written by a successful [add_document] has under
    [chunk_text] a preview of at most 103 characters that agrees with the
    chunk on its first 100 characters: the chunk itself when it has at most
    100 characters, else 103 characters; the caller's metadata cannot
    replace it. *)
Theorem add_document_stores_preview (E : Externals) (self : DocumentStore)
    (uuid4 file_path : string) (metadata : option Metadata) (w w' : World)
    (doc_id : string) :
  add_document E self uuid4 file_path metadata w = (Ok doc_id, w') →
  ∀ (i : nat) (row : string * Chroma.Entry),
    written_batch w' !! i = Some row →
    ∃ preview : string,
      Chroma.e_metadata row.2 !! "chunk_text" = Some (PStr preview)
      ∧ (String.length preview <= 103)%nat
      ∧ Py.take 100 preview = Py.take 100 (Chroma.e_document row.2)
      ∧ ((String.length (Chroma.e_document row.2) <= 100)%nat →
         preview = Chroma.e_document row.2)
      ∧ ((100 < String.length (Chroma.e_document row.2))%nat →
         String.length preview = 103%nat).
Proof.
  intros Hrun i row Hi.
  apply add_document_batch in Hrun as (text & w1 & _ & _ & _ & Hrows).
  destruct (Hrows i row Hi) as (_ & _ & Hmd & _). clear Hrows.
  set (chunk := Chroma.e_document row.2) in *.
  exists (chunk_preview chunk). rewrite Hmd.
  split; [apply chunk_metadata_text|].
  unfold chunk_preview.
  destruct (100 <? String.length chunk)%nat eqn:Hlen.
  - apply Nat.ltb_lt in Hlen.
    assert (Hl : String.length (Py.take 100 chunk +:+ "...") = 103%nat).
    { rewrite string_length_app, take_length.
      change (String.length "...") with 3%nat. lia. }
    split; [lia|]. split; [apply take_take_app; lia|]. split; [lia|done].
  - apply Nat.ltb_ge in Hlen. split; [lia|]. split; [done|].
    split; [done|lia].
Qed.

(** Short chunks are their own preview. *)
Lemma add_document_stores_preview_witness :
  ∃ (row : string * Chroma.Entry) (preview : string),
    written_batch
      (add_document Demo.externals Demo.store "u" "a.txt" None
         Demo.empty_world).2 !! 1%nat = Some row
    ∧ Chroma.e_metadata row.2 !! "chunk_text" = Some (PStr preview)
    ∧ (String.length preview <= 103)%nat
    ∧ preview = "beta".
Proof.
  assert (Hrun : add_document Demo.externals Demo.store "u" "a.txt" None
                   Demo.empty_world
                 = (Ok "u", (add_document Demo.externals Demo.store "u" "a.txt"
                               None Demo.empty_world).2)).
  { vm_compute. reflexivity. }
  destruct (written_batch
              (add_document Demo.externals Demo.store "u" "a.txt" None
                 Demo.empty_world).2 !! 1%nat) as [row|] eqn:Hrow;
    [|vm_compute in Hrow; discriminate Hrow].
  destruct (add_document_stores_preview Demo.externals Demo.store "u" "a.txt"
              None Demo.empty_world _ "u" Hrun 1%nat row Hrow)
    as (preview & H1 & H2 & _ & H4 & _).
  exists row, preview. split; [reflexivity|]. split; [exact H1|].
  split; [exact H2|].
  vm_compute in Hrow. injection Hrow as <-. apply H4. vm_compute. lia.
Defined.

Example chunk_preview_long :
  chunk_preview (String.concat "" (repeat "abcdefghij" 12))
  = String.concat "" (repeat "abcdefghij" 10) +:+ "...".
Proof. vm_compute. reflexivity. Qed.

(** ** Order of the calls made by [add_document] *)

Lemma extract_text_from_file_calls (E : Externals) (file_path : string)
    (w w1 : World) (r : result string) :
  extract_text_from_file E file_path w = (r, w1) →
  (r = Raise (UnsupportedFormat (Py.suffix file_path)) ∧ w1 = w)
  ∨ ∃ c, reads file_path c ∧ w1 = mkWorld (collection w) (c :: calls w).
Proof.
  unfold extract_text_from_file, _extract_from_pdf, _extract_from_docx,
    _extract_from_txt, reads.
  repeat case_match; run; repeat case_match; intros; simplify_eq;
    try (right; eexists; split; [|reflexivity]; tauto).
  by left.
Qed.

(** X14: [add_document] calls its collaborators in one order, each at most
    once and each only after the one before it succeeded: nothing for an
    unsupported suffix; else one read of the file; then, when the text was
    read, one call to the embedder with all the chunks the splitter makes of
    that text; then, when the embedder answered, one [collection.add] of
    those chunks with the embeddings returned, one metadata and one
    identifier per chunk. *)
Theorem add_document_call_sequence (E : Externals) (self : DocumentStore)
    (uuid4 file_path : string) (metadata : option Metadata) (w : World) :
  ∃ new,
    calls (add_document E self uuid4 file_path metadata w).2 = new ++ calls w
    ∧ ((new = []
        ∧ (add_document E self uuid4 file_path metadata w).1
          = Raise (UnsupportedFormat (Py.suffix file_path)))
       ∨ (∃ c e,
            reads file_path c ∧ new = [c]
            ∧ (extract_text_from_file E file_path w).1 = Raise e
            ∧ (add_document E self uuid4 file_path metadata w).1 = Raise e)
       ∨ (∃ c text e,
            reads file_path c
            ∧ (extract_text_from_file E file_path w).1 = Ok text
            ∧ embed_documents E (split_text E (text_splitter self) text)
              = Raise e
            ∧ new = [CallEmbedDocuments
                       (split_text E (text_splitter self) text); c]
            ∧ (add_document E self uuid4 file_path metadata w).1 = Raise e)
       ∨ (∃ c text embeddings,
            reads file_path c
            ∧ (extract_text_from_file E file_path w).1 = Ok text
            ∧ embed_documents E (split_text E (text_splitter self) text)
              = Ok embeddings
            ∧ new = [CallAdd (split_text E (text_splitter self) text)
                       embeddings
                       (imap (chunk_metadata
                                (base_metadata file_path uuid4
                                   (split_text E (text_splitter self) text)
                                   metadata))
                             (split_text E (text_splitter self) text))
                       (chunk_id uuid4
                          <$> seq 0 (length
                                       (split_text E (text_splitter self)
                                          text)));
                     CallEmbedDocuments
                       (split_text E (text_splitter self) text); c])).
Proof.
  unfold add_document.
  destruct (extract_text_from_file E file_path w) as [[text|e] w1] eqn:Hx;
    [erewrite bind_ok by exact Hx | erewrite bind_raise by exact Hx].
  - apply extract_text_from_file_calls in Hx as [[? _]|(c & Hc & ->)]; [done|].
    set (chunks := split_text E (text_splitter self) text).
    unfold collection_add, Chroma.add. run.
    destruct (embed_documents E chunks) as [embeddings|e] eqn:He; simpl.
    + eexists [_; _; _]. split.
      * case_bool_decide; simpl; reflexivity.
      * do 3 right. exists c, text, embeddings. done.
    + eexists [_; _]. split; [reflexivity|].
      right. right. left. by exists c, text, e.
  - apply extract_text_from_file_calls in Hx as [[-> ->]|(c & Hc & ->)].
    + exists []. split; [done|]. by left.
    + exists [c]. split; [done|]. right. left. by exists c, e.
Qed.

Example add_document_call_sequence_ok :
  tail (calls (add_document Demo.externals Demo.store "u" "a.txt" None
                 Demo.empty_world).2)
  = [CallEmbedDocuments ["alpha"; "beta"]; CallReadTxt "a.txt"].
Proof. vm_compute. reflexivity. Qed.

(** ** Text of a PDF *)

Lemma foldl_pages (pages : list string) :
  ∀ (page acc : string),
    foldl (fun text page => text +:+ (page +:+ nl)) acc (page :: pages)
    = acc +:+ (Py.join nl (page :: pages) +:+ nl).
Proof.
  unfold Py.join.
  induction pages as [|q rest IH]; intros page acc; [done|].
  change (foldl ?f acc (page :: q :: rest))
    with (foldl f (acc +:+ (page +:+ nl)) (q :: rest)).
  rewrite IH.
  change (String.concat nl (page :: q :: rest))
    with (page +:+ (nl +:+ String.concat nl (q :: rest))).
  by rewrite !string_app_assoc.
Qed.

Lemma join_length (pages : list string) :
  ∀ page : string,
    String.length (Py.join nl (page :: pages) +:+ nl)
    = list_sum ((fun p => S (String.length p)) <$> (page :: pages)).
Proof.
  unfold Py.join.
  induction pages as [|q rest IH]; intros page.
  - cbn [String.concat fmap list_fmap list_sum foldr].
    rewrite string_length_app. simpl. lia.
  - change (String.concat nl (page :: q :: rest))
      with (page +:+ (nl +:+ String.concat nl (q :: rest))).
    rewrite (string_app_assoc page), (string_length_app page).
    rewrite (string_app_assoc nl), (string_length_app nl).
    rewrite (IH q).
    cbn [fmap list_fmap list_sum foldr]. simpl. lia.
Qed.

(** X15: the text [_extract_from_pdf] returns is empty for a file with no
    page and otherwise the page texts joined by newlines with one more
    newline at the end, so its length is the sum over the pages of the
    length of the page plus one; the file is read once, and an error of the
    reader is raised as it is. *)
Theorem extract_from_pdf_text (E : Externals) (file_path : string)
    (w : World) :
  (∀ pages,
     pdf_page_texts E file_path = Ok pages →
     ∃ text,
       _extract_from_pdf E file_path w
       = (Ok text, mkWorld (collection w) (CallReadPdf file_path :: calls w))
       ∧ text = match pages with
                | [] => ""
                | _ => Py.join nl pages +:+ nl
                end
       ∧ String.length text
         = list_sum ((fun p => S (String.length p)) <$> pages))
  ∧ (∀ e,
       pdf_page_texts E file_path = Raise e →
       _extract_from_pdf E file_path w
       = (Raise e, mkWorld (collection w) (CallReadPdf file_path :: calls w))).
Proof.
  unfold _extract_from_pdf. split.
  - intros pages H. run. rewrite H. eexists. split; [reflexivity|].
    destruct pages as [|page pages]; [done|].
    rewrite foldl_pages. change ("" +:+ ?s) with s.
    split; [done|apply join_length].
  - intros e H. run. by rewrite H.
Qed.

Lemma extract_from_pdf_text_witness :
  ∃ text,
    _extract_from_pdf Demo.externals "lab.pdf" Demo.empty_world
    = (Ok text, mkWorld ∅ [CallReadPdf "lab.pdf"])
    ∧ text = "page one" +:+ nl +:+ "page two" +:+ nl
    ∧ String.length text = 18%nat.
Proof.
  destruct (proj1 (extract_from_pdf_text Demo.externals "lab.pdf"
                     Demo.empty_world) ["page one"; "page two"] eq_refl)
    as (text & Hrun & Htext & Hlen).
  exists text. split; [exact Hrun|]. split; [|exact Hlen].
  rewrite Htext. reflexivity.
Defined.

(** ** Search: failures and odd answers *)

Lemma search_documents_collection (E : Externals) (query : string)
    (n_results : Z) (filter_dict : option Where) (w : World) :
  collection (search_documents E query n_results filter_dict w).2
  = collection w.
Proof.
  unfold search_documents. run.
  destruct (embed_query E query) as [qe|e]; simpl; [|done].
  destruct (collection_query E _ _ _ _) as [r|e]; simpl; [|done].
  destruct (index0 (Chroma.q_documents r)); simpl; [|done].
  destruct (index0 (Chroma.q_metadatas r)); simpl; [|done].
  destruct (index0 (Chroma.q_distances r)); simpl; done.
Qed.

(** X16: [search_documents] never changes the collection; when the embedder
    raises, the index is not queried and the error is the embedder's; when
    the index raises, the error is the index's. *)
Theorem search_documents_failures (E : Externals) (query : string)
    (n_results : Z) (filter_dict : option Where) (w : World) :
  collection (search_documents E query n_results filter_dict w).2
  = collection w
  ∧ (∀ e,
       embed_query E query = Raise e →
       search_documents E query n_results filter_dict w
       = (Raise e, mkWorld (collection w) (CallEmbedQuery query :: calls w)))
  ∧ (∀ qe e,
       embed_query E query = Ok qe →
       collection_query E (collection w) [qe] n_results filter_dict = Raise e →
       search_documents E query n_results filter_dict w
       = (Raise e,
          mkWorld (collection w)
                  (CallQuery [qe] n_results filter_dict
                     :: CallEmbedQuery query :: calls w))).
Proof.
  split; [apply search_documents_collection|]. split.
  - intros e He. unfold search_documents. run. by rewrite He.
  - intros qe e He Hq. unfold search_documents. run. rewrite He. simpl.
    by rewrite Hq.
Qed.

Lemma search_documents_failures_witness :
  search_documents
    (mkExternals (pdf_page_texts Demo.externals)
       (docx_paragraph_texts Demo.externals) (read_utf8 Demo.externals)
       (split_text Demo.externals) (embed_documents Demo.externals)
       (fun _ => Raise (ExternalError "embedder" "service unavailable"))
       (collection_query Demo.externals) (llm_invoke Demo.externals)
       (str_float Demo.externals))
    "alpha" 5 None Demo.world3
  = (Raise (ExternalError "embedder" "service unavailable"),
     mkWorld (collection Demo.world3) [CallEmbedQuery "alpha"]).
Proof.
  eapply (proj1 (proj2 (search_documents_failures _ "alpha" 5 None
                          Demo.world3))).
  reflexivity.
Defined.

(** X17: [search_documents] reads only the first list of each field of the
    answer.  It raises [IndexError] when a field has no list at all; else it
    returns as many results as the shortest of the three first lists, so an
    empty first list gives the empty result and not an error. *)
Theorem search_documents_first_lists (E : Externals) (query : string)
    (n_results : Z) (filter_dict : option Where) (w : World) (qe : Embedding)
    (r : Chroma.QueryResult) :
  embed_query E query = Ok qe →
  collection_query E (collection w) [qe] n_results filter_dict = Ok r →
  (Chroma.q_documents r = [] ∨ Chroma.q_metadatas r = []
   ∨ Chroma.q_distances r = [] →
   (search_documents E query n_results filter_dict w).1
   = Raise (IndexError "list index out of range"))
  ∧ (∀ documents metadatas distances more1 more2 more3,
       Chroma.q_documents r = documents :: more1 →
       Chroma.q_metadatas r = metadatas :: more2 →
       Chroma.q_distances r = distances :: more3 →
       ∃ res,
         (search_documents E query n_results filter_dict w).1 = Ok res
         ∧ length res
           = Nat.min (length documents)
                     (Nat.min (length metadatas) (length distances))
         ∧ (documents = [] → res = [])).
Proof.
  intros He Hq. unfold search_documents. run. rewrite He. simpl.
  rewrite Hq. split.
  - intros H. destruct (Chroma.q_documents r) as [|d ds]; simpl; [done|].
    destruct (Chroma.q_metadatas r) as [|m ms]; simpl; [done|].
    destruct (Chroma.q_distances r) as [|x xs]; simpl; [done|].
    by destruct H as [H|[H|H]].
  - intros documents metadatas distances more1 more2 more3 -> -> ->. simpl.
    eexists. split; [reflexivity|]. split.
    + by rewrite length_fmap, zip3_length.
    + by intros ->.
Qed.

(** An empty collection: the index answers with empty first lists. *)
Lemma search_documents_first_lists_witness :
  (search_documents Demo.externals "alpha" 5 None Demo.empty_world).1 = Ok [].
Proof.
  destruct (search_documents_first_lists Demo.externals "alpha" 5 None
              Demo.empty_world (Demo.embed "alpha")
              (Chroma.mkQueryResult [[]] [[]] [[]] [[]]) eq_refl eq_refl)
    as (_ & Hok).
  destruct (Hok [] [] [] [] [] [] eq_refl eq_refl eq_refl) as (res & Hres & _ & Hnil).
  rewrite Hres. f_equal. by apply Hnil.
Defined.

(** ** The agent: cache, calls and prompt *)

Lemma search_knowledge_base_run (E : Externals) (query : string)
    (n_results : Z) (filter_dict : option Where) (s : Session) :
  search_knowledge_base E query n_results filter_dict s
  = match search_documents E query n_results filter_dict (world s) with
    | (Ok docs, w') =>
        (Ok docs,
         mkSession (mkRAGAgent (role (agent s)) (basic_prompt (agent s))
                      (context (agent s)) (enhanced_prompt (agent s))
                      (llm (agent s)) docs) w')
    | (Raise e, w') => (Raise e, mkSession (agent s) w')
    end.
Proof.
  unfold search_knowledge_base. run.
  by destruct (search_documents E query n_results filter_dict (world s))
    as [[docs|e] w'].
Qed.

(** X18: [search_knowledge_base] returns what [search_documents] returns;
    on success [retrieved_docs] becomes the results returned, on failure it
    keeps what it held; nothing else of the agent changes. *)
Theorem search_knowledge_base_cache (E : Externals) (query : string)
    (n_results : Z) (filter_dict : option Where) (s : Session) :
  (search_knowledge_base E query n_results filter_dict s).1
  = (search_documents E query n_results filter_dict (world s)).1
  ∧ world (search_knowledge_base E query n_results filter_dict s).2
    = (search_documents E query n_results filter_dict (world s)).2
  ∧ same_settings (agent s)
      (agent (search_knowledge_base E query n_results filter_dict s).2)
  ∧ retrieved_docs
      (agent (search_knowledge_base E query n_results filter_dict s).2)
    = match (search_documents E query n_results filter_dict (world s)).1 with
      | Ok docs => docs
      | Raise _ => retrieved_docs (agent s)
      end.
Proof.
  rewrite search_knowledge_base_run.
  destruct (search_documents E query n_results filter_dict (world s))
    as [[docs|e] w']; simpl; unfold same_settings; simpl; done.
Qed.

Lemma build_context_from_search_agent (E : Externals) (query : string)
    (n_results : Z) (s : Session) :
  same_settings (agent s) (agent (build_context_from_search E query n_results s).2)
  ∧ retrieved_docs (agent (build_context_from_search E query n_results s).2)
    = match (search_documents E query n_results None (world s)).1 with
      | Ok docs => docs
      | Raise _ => retrieved_docs (agent s)
      end.
Proof.
  unfold build_context_from_search, mbind, M_bind.
  rewrite search_knowledge_base_run.
  destruct (search_documents E query n_results None (world s))
    as [[[|r docs]|e] w']; simpl; unfold same_settings; simpl; done.
Qed.

Lemma search_documents_outcome (E : Externals) (query : string)
    (n_results : Z) (filter_dict : option Where) (w : World) :
  (calls (search_documents E query n_results filter_dict w).2
   = CallEmbedQuery query :: calls w
   ∧ ∃ e, (search_documents E query n_results filter_dict w).1 = Raise e)
  ∨ ∃ qe,
      embed_query E query = Ok qe
      ∧ calls (search_documents E query n_results filter_dict w).2
        = CallQuery [qe] n_results filter_dict :: CallEmbedQuery query :: calls w.
Proof.
  unfold search_documents. run.
  destruct (embed_query E query) as [qe|e]; simpl; [|left; eauto].
  right. exists qe. split; [done|].
  destruct (collection_query E _ _ _ _) as [r|e]; simpl; [|done].
  destruct (index0 (Chroma.q_documents r)); simpl; [|done].
  destruct (index0 (Chroma.q_metadatas r)); simpl; [|done].
  destruct (index0 (Chroma.q_distances r)); simpl; done.
Qed.

Lemma build_context_from_search_result (E : Externals) (query : string)
    (n_results : Z) (s : Session) :
  match (search_documents E query n_results None (world s)).1 with
  | Ok [] =>
      (build_context_from_search E query n_results s).1 = Ok no_documents
  | Ok _ => ∃ rag, (build_context_from_search E query n_results s).1 = Ok rag
  | Raise e => (build_context_from_search E query n_results s).1 = Raise e
  end.
Proof.
  unfold build_context_from_search, mbind, M_bind.
  rewrite search_knowledge_base_run.
  destruct (search_documents E query n_results None (world s))
    as [[[|r docs]|e] w']; simpl; eauto.
Qed.

Lemma get_output_with_rag_run (E : Externals) (user_query : option string)
    (search_filter : option Where) (s : Session) (model : LLM) :
  llm (agent s) = Some model →
  get_output_with_rag E user_query search_filter s
  = match build_context_from_search E
            (Py.or_else user_query (basic_prompt (agent s))) 5 s with
    | (Ok rag, s1) =>
        (llm_invoke E model
           (final_prompt (role (agent s)) (enhanced_context_of (agent s) rag)
              (base_prompt_of (agent s))),
         mkSession (agent s1)
           (mkWorld (collection (world s1))
              (CallLLM model
                 (final_prompt (role (agent s))
                    (enhanced_context_of (agent s) rag)
                    (base_prompt_of (agent s)))
                 :: calls (world s1))))
    | (Raise e, s1) => (Raise e, s1)
    end.
Proof.
  intros Hllm. unfold get_output_with_rag.
  unfold mbind at 1, M_bind at 1. cbn [get_agent]. rewrite Hllm.
  destruct (build_context_from_search_agent E
              (Py.or_else user_query (basic_prompt (agent s))) 5 s)
    as [(Hr & Hb & Hc & He & Hl) _].
  unfold mbind, M_bind.
  destruct (build_context_from_search E _ 5 s) as [[rag|e] s1]; [|done].
  simpl in *. unfold on_store, call, enhanced_context_of, base_prompt_of.
  simpl. by rewrite Hr, Hb, Hc, He.
Qed.

(** X19: with a model set, [get_output_with_rag] calls its collaborators in
    one order, each at most once and each only after the one before it
    answered: the embedder on [user_query], or on [basic_prompt] when the
    query is absent or empty; then the index for five results without a
    filter; then the model, whose answer (or error) is the outcome. *)
Theorem get_output_with_rag_call_sequence (E : Externals)
    (user_query : option string) (search_filter : option Where) (s : Session)
    (model : LLM) :
  llm (agent s) = Some model →
  ∃ new,
    calls (world (get_output_with_rag E user_query search_filter s).2)
    = new ++ calls (world s)
    ∧ ((new = [CallEmbedQuery (Py.or_else user_query (basic_prompt (agent s)))]
        ∧ ∃ e, (get_output_with_rag E user_query search_filter s).1 = Raise e)
       ∨ (∃ qe e,
            new = [CallQuery [qe] 5 None;
                   CallEmbedQuery
                     (Py.or_else user_query (basic_prompt (agent s)))]
            ∧ (get_output_with_rag E user_query search_filter s).1 = Raise e)
       ∨ (∃ qe prompt,
            new = [CallLLM model prompt; CallQuery [qe] 5 None;
                   CallEmbedQuery
                     (Py.or_else user_query (basic_prompt (agent s)))]
            ∧ (get_output_with_rag E user_query search_filter s).1
              = llm_invoke E model prompt)).
Proof.
  intros Hllm. rewrite (get_output_with_rag_run _ _ _ _ _ Hllm).
  set (query := Py.or_else user_query (basic_prompt (agent s))).
  pose proof (build_context_from_search_world E query 5 s) as Hw.
  pose proof (build_context_from_search_result E query 5 s) as Hres.
  destruct (search_documents_outcome E query 5 None (world s))
    as [[Hcalls [e He]]|(qe & Hqe & Hcalls)].
  - rewrite He in Hres.
    destruct (build_context_from_search E query 5 s) as [[rag|e'] s1];
      simpl in *; [done|].
    eexists [_]. split; [by rewrite Hw, Hcalls|]. left. eauto.
  - destruct (build_context_from_search E query 5 s) as [[rag|e'] s1];
      simpl in *.
    + eexists [_; _; _]. split; [by rewrite Hw, Hcalls|].
      right. right. eauto.
    + eexists [_; _]. split; [by rewrite Hw, Hcalls|].
      right. left. eauto.
Qed.

(** No query given: the base prompt is what is embedded. *)
Lemma get_output_with_rag_call_sequence_witness :
  (∃ new,
     calls (world (get_output_with_rag Demo.externals None None
                     (Demo.session (Demo.agent_with (Some "gemini"))
                        Demo.empty_world)).2)
     = new ++ [])
  ∧ calls (world (get_output_with_rag Demo.externals None None
                    (Demo.session (Demo.agent_with (Some "gemini"))
                       Demo.empty_world)).2)
    = [ CallLLM "gemini"
          (final_prompt "physics"
             ("Earlier notes" +:+ nl +:+ nl +:+ no_documents)
             "Explain the lab");
        CallQuery [Demo.embed "Explain the lab"] 5 None;
        CallEmbedQuery "Explain the lab" ].
Proof.
  split.
  - destruct (get_output_with_rag_call_sequence Demo.externals None None
                (Demo.session (Demo.agent_with (Some "gemini"))
                   Demo.empty_world)
                "gemini" eq_refl) as (new & Hnew & _).
    exists new. exact Hnew.
  - vm_compute. reflexivity.
Defined.

(** X20: [get_output_with_rag] never changes the collection nor the agent's
    role, prompts, context and model.  Without a model [retrieved_docs] is
    kept; with one it becomes the results of the search when the search
    succeeded, also when the model then fails, and is kept when the search
    failed. *)
Theorem get_output_with_rag_state (E : Externals)
    (user_query : option string) (search_filter : option Where)
    (s : Session) :
  collection (world (get_output_with_rag E user_query search_filter s).2)
  = collection (world s)
  ∧ same_settings (agent s)
      (agent (get_output_with_rag E user_query search_filter s).2)
  ∧ retrieved_docs
      (agent (get_output_with_rag E user_query search_filter s).2)
    = match llm (agent s) with
      | None => retrieved_docs (agent s)
      | Some _ =>
          match (search_documents E
                   (Py.or_else user_query (basic_prompt (agent s))) 5 None
                   (world s)).1 with
          | Ok docs => docs
          | Raise _ => retrieved_docs (agent s)
          end
      end.
Proof.
  destruct (llm (agent s)) as [model|] eqn:Hllm.
  - rewrite (get_output_with_rag_run _ _ _ _ _ Hllm).
    set (query := Py.or_else user_query (basic_prompt (agent s))).
    pose proof (build_context_from_search_world E query 5 s) as Hw.
    pose proof (build_context_from_search_agent E query 5 s) as [Hsame Hdocs].
    pose proof (search_documents_collection E query 5 None (world s)) as Hc.
    destruct (build_context_from_search E query 5 s) as [[rag|e] s1];
      simpl in *; rewrite Hw, Hc; done.
  - unfold get_output_with_rag. run. rewrite Hllm. unfold same_settings. done.
Qed.

Example get_output_with_rag_keeps_cache_on_model_error :
  retrieved_docs
    (agent (get_output_with_rag
              (mkExternals (pdf_page_texts Demo.externals)
                 (docx_paragraph_texts Demo.externals)
                 (read_utf8 Demo.externals) (split_text Demo.externals)
                 (embed_documents Demo.externals) (embed_query Demo.externals)
                 (collection_query Demo.externals)
                 (fun _ _ => Raise (ExternalError "llm" "quota exceeded"))
                 (str_float Demo.externals))
              (Some "alpha") None
              (Demo.session (Demo.agent_with (Some "gemini")) Demo.world3)).2)
  = to_result <$> [ ("beta", {[ "doc_id" := PStr "d1" ]}, 0);
                    ("alpha",
                     {[ "doc_id" := PStr "d1"; "source" := PStr "a.txt" ]},
                     0.75);
                    ("gamma",
                     {[ "doc_id" := PStr "d2"; "source" := PInt 7 ]},
                     1.5) ]%float.
Proof. vm_compute. reflexivity. Qed.




(** ** A record without [doc_id] *)

(** A record written to the index by other means: it has a [source] and no
    [doc_id]. *)
Lemma get_all_documents_key_error_witness :
  (get_all_documents
     (mkWorld {[ "stray" := Demo.entry "text" {[ "source" := PStr "x.txt" ]} ]}
        [])).1 = KeyError "doc_id".
Proof.
  destruct (get_all_documents_key_error
              (mkWorld {[ "stray" := Demo.entry "text"
                                       {[ "source" := PStr "x.txt" ]} ]} []))
    as (_ & _ & _ & Hraise).
  apply Hraise.
  - intros id e Hl. simpl in Hl.
    apply lookup_singleton_Some in Hl as [_ <-]. simpl.
    intros H. apply (f_equal (fun m => m !! "source")) in H.
    rewrite lookup_singleton_eq, lookup_empty in H. discriminate H.
  - exists "stray", (Demo.entry "text" {[ "source" := PStr "x.txt" ]}).
    split; reflexivity.
Defined.

(** A record stored without metadata: the subscript is on [None]. *)
Example get_all_documents_type_error :
  (get_all_documents (mkWorld {[ "bare" := Demo.entry "text" ∅ ]} [])).1
  = TypeError "'NoneType' object is not subscriptable".
Proof. vm_compute. reflexivity. Qed.
